(** * moomoo_export.py: the connectivity-gated export pipeline

    A shallow embedding of [src/python/moomoo_export.py].

    The script talks to three outside parties: a TCP endpoint (the
    readiness probe), the vendor SDK (a trade context with three query
    methods and [close]) and the local machine (console, clock, file
    system).  Their answers are collected in a record [World]; what the
    script does to them is recorded as a list of [event]s.  A Python
    computation is a pair of the events it performed and either its
    value or the exception it raised.

    Numbers typed [float] in the source are binary64 floats, as in
    Python: the kernel's primitive [float], with its IEEE division and
    comparisons (a NaN compares false with everything). *)

From Stdlib Require Import ZArith List String Ascii Bool Lia.
From Stdlib Require Import DecimalString PrimFloat FloatOps SpecFloat.
Import ListNotations.

Local Open Scope string_scope.
Local Open Scope list_scope.

(** ** Python exceptions *)

Inductive exn : Type :=
| ZeroDivisionError
| ValueError (msg : string)
| OverflowError (msg : string)
| RuntimeError (msg : string)
| UnboundLocalError (var : string)
| AttributeError (type_name attr : string)
| TypeError (msg : string)
| IndexError (msg : string)
| OSError (msg : string)
| SDKError (msg : string).

(** [UnboundLocalError] is a subclass of [NameError]; nothing else in
    this list is. *)
Definition is_NameError (e : exn) : bool :=
  match e with
  | UnboundLocalError _ => true
  | _ => false
  end.

Inductive result (A : Type) : Type :=
| Return (a : A)
| Raise (e : exn).
Arguments Return {A} a.
Arguments Raise {A} e.

(** ** Data exchanged with the SDK *)

Inductive ret_code : Type := RET_OK | RET_ERROR.

Definition ret_code_eqb (a b : ret_code) : bool :=
  match a, b with
  | RET_OK, RET_OK | RET_ERROR, RET_ERROR => true
  | _, _ => false
  end.

(** The second component of an SDK answer: a [pd.DataFrame] (its rows,
    as [to_dict(orient="records")] lists them) or, as [get_accounts]
    prints it on a non-success status, a diagnostic that is not a table
    (the SDK hands back the error text, a [str]). *)
Inductive payload (R : Type) : Type :=
| DataFrame (rows : list R)
| Message (msg : string).
Arguments DataFrame {R} rows.
Arguments Message {R} msg.

(** A row of [get_acc_list]: the two columns the script reads.  The
    account id is kept as the text [str(acc_id)], which is all the
    script ever uses of it. *)
Record acc_row : Type := mk_acc_row {
  acc_id : string;
  trd_env : string
}.

(** A row of [accinfo_query]: column ["total_assets"] and the others. *)
Record acc_info : Type := mk_acc_info {
  total_assets : float;
  other_fields : list (string * string)
}.

(** A row of [position_list_query], as a record of column/value. *)
Definition position : Type := list (string * string).

Inductive TrdMarket : Type := TrdMarket_US | TrdMarket_HK | TrdMarket_CN.
Inductive SecurityFirm : Type := FUTUSG | FUTUSECURITIES | FUTUINC.
Inductive Currency : Type := USD | HKD | SGD.

Record ctx_config : Type := mk_ctx_config {
  filter_trdmarket : TrdMarket;
  ctx_host : string;
  ctx_port : Z;
  security_firm : SecurityFirm
}.

(** The object returned by [ft.OpenSecTradeContext(...)]: what each of
    its methods answers during the run.  An answer is a Python value or
    an exception raised by the call itself (transport failure). *)
Record TradeContext : Type := mk_TradeContext {
  get_acc_list : result (ret_code * payload acc_row);
  position_list_query : string -> result (ret_code * payload position);
  accinfo_query : string -> result (ret_code * payload acc_info);
  close : result unit
}.

(** [data = dict(timestamp=..., account=..., positions=...)]. *)
Record snapshot : Type := mk_snapshot {
  timestamp : string;
  account : acc_info;
  positions : list position
}.

(** [THIS_DIR / name]: a file of the directory of the script *)
Record Path : Type := mk_Path {
  path_dir : string;
  path_name : string
}.

(** ** The outside world of one run *)

(** How the [try] block of one probe iteration ends: [connect]
    returned; or the block raised a [socket.error] ([OSError]: refused,
    timed out, unreachable), which the handler swallows; or it raised
    something else, which the handler does not catch (a port outside
    0..65535 is an [OverflowError], a negative socket timeout a
    [ValueError]). *)
Inductive attempt_outcome : Type :=
| Connected
| SocketError
| OtherError (e : exn).

Record World : Type := mk_World {
  (** the [try] block of the [k]-th iteration of a probe of host:port
      with the given socket timeout *)
  attempt : string -> Z -> float -> nat -> attempt_outcome;
  (** [time.sleep(seconds)]: [None] when it returns *)
  sleep : float -> option exn;
  (** the constructor [ft.OpenSecTradeContext] *)
  OpenSecTradeContext : ctx_config -> result TradeContext;
  (** [Path(__file__).parent] *)
  THIS_DIR : string;
  (** [datetime.now().strftime("%Y%m%d_%H%M%S")] read while the given
      account is exported *)
  now : string -> string;
  (** [open(out_path, "w")]: [None] when the file is opened, that is
      created or truncated *)
  open_file : Path -> option exn;
  (** [json.dump(data, f, indent=4)] and the closing of the file at the
      end of the [with] block: [None] when both succeed *)
  json_dump : Path -> snapshot -> option exn
}.

(** ** What the script does to the world *)

Inductive console_line : Type :=
| Text (s : string)
  (** [f"  [green bold]➜ Total assets value:[/green bold] ${v:.2f}"] *)
| TotalAssetsLine (v : float)
  (** [print("get_acc_list error: ", data)] *)
| AccListErrorLine (data : payload acc_row)
  (** [f"  [green bold]➜ Success[/green bold] Data exported to '{out_path}'"] *)
| ExportedLine (out_path : Path).

Inductive event : Type :=
| EvConnect (host : string) (port : Z) (socket_timeout : float)
| EvSleep (seconds : float)
| EvPrint (line : console_line)
| EvOpen (cfg : ctx_config)
| EvGetAccList
| EvPositionListQuery (acc : string) (refresh_cache : bool)
| EvAccInfoQuery (acc : string) (currency : Currency) (refresh_cache : bool)
| EvOpenFile (path : Path)
| EvWrite (path : Path) (data : snapshot)
| EvClose.

Definition trace : Type := list event.

(** ** Computations: events performed, then a value or an exception *)

Definition M (A : Type) : Type := (trace * result A)%type.

Definition ret {A : Type} (a : A) : M A := ([], Return a).

Definition raise {A : Type} (e : exn) : M A := ([], Raise e).

Definition bind {A B : Type} (m : M A) (f : A -> M B) : M B :=
  match m with
  | (t, Raise e) => (t, Raise e)
  | (t, Return a) => let (t', r) := f a in (t ++ t', r)
  end.

Definition emit (e : event) : M unit := ([e], Return tt).

(** an event followed by the outcome the world gives it *)
Definition perform {A : Type} (e : event) (r : result A) : M A := ([e], r).

(** a computation without events *)
Definition pure_result {A : Type} (r : result A) : M A := ([], r).

(** a call that returns nothing or raises *)
Definition outcome (o : option exn) : result unit :=
  match o with
  | None => Return tt
  | Some e => Raise e
  end.

Definition print (s : string) : M unit := emit (EvPrint (Text s)).

Declare Scope py_scope.
Delimit Scope py_scope with py.
Notation "x <- c1 ;; c2" := (bind c1 (fun x => c2))
  (at level 61, c1 at next level, right associativity) : py_scope.
Notation "' pat <- c1 ;; c2" := (bind c1 (fun x => match x with pat => c2 end))
  (at level 61, pat pattern, c1 at next level, right associativity) : py_scope.
Notation "c1 ;; c2" := (bind c1 (fun _ => c2))
  (at level 61, right associativity) : py_scope.
Local Open Scope py_scope.

(** ** [moomoo_is_running] *)

(** [int(x)] on a float: truncation toward zero; an infinity is an
    [OverflowError], a NaN a [ValueError]. *)
Definition int_of_float (x : float) : result Z :=
  match Prim2SF x with
  | S754_nan => Raise (ValueError "cannot convert float NaN to integer")
  | S754_infinity _ =>
      Raise (OverflowError "cannot convert float infinity to integer")
  | S754_zero _ => Return 0%Z
  | S754_finite s m e =>
      let a := if (0 <=? e)%Z then (Z.pos m * 2 ^ e)%Z
               else (Z.pos m / 2 ^ (- e))%Z in
      Return (if s then (- a)%Z else a)
  end.

(** [a / b] on floats: the IEEE quotient, unless [b] is a zero. *)
Definition true_div (a b : float) : M float :=
  if (b =? 0)%float then raise ZeroDivisionError else ret (a / b)%float.

(** One pass of the [for] body for each remaining element of the range;
    [k] counts the attempts already made. *)
Fixpoint probe_loop (w : World) (host : string) (port : Z)
    (retry_delay : float) (k remaining : nat) : M bool :=
  match remaining with
  | O => ret false
  | S remaining' =>
      (* the try block: socket, settimeout(retry_delay), connect *)
      connected <- perform (EvConnect host port retry_delay)
                     (match attempt w host port retry_delay k with
                      | Connected => Return true
                      | SocketError => Return false
                      | OtherError e => Raise e
                      end) ;;
      if (connected : bool) then ret true
      else
        (* except socket.error: pass *)
        perform (EvSleep retry_delay) (outcome (sleep w retry_delay)) ;;
        probe_loop w host port retry_delay (S k) remaining'
  end.

Definition moomoo_is_running (w : World) (host : string) (port : Z)
    (timeout retry_delay : float) : M bool :=
  q <- true_div timeout retry_delay ;;
  n <- pure_result (int_of_float q) ;;
  (* range(n) is empty for n <= 0 *)
  probe_loop w host port retry_delay 0 (Z.to_nat n).

Definition default_host : string := "127.0.0.1".
Definition default_port : Z := 11111.
Definition default_timeout : float := 3%float.
Definition default_retry_delay : float := 0.5%float.

(** ** [get_trade_context] *)

Definition trade_config : ctx_config :=
  {| filter_trdmarket := TrdMarket_US;
     ctx_host := "127.0.0.1";
     ctx_port := 11111;
     security_firm := FUTUSG |}.

Definition not_running_line : string :=
  "[red bold]Moomoo OpenD is not running. Please run Moomoo OpenD locally at port 11111 and try again.[/red bold]".

Definition get_trade_context (w : World) : M TradeContext :=
  running <- moomoo_is_running w default_host default_port
               default_timeout default_retry_delay ;;
  if negb running then
    print not_running_line ;;
    raise (RuntimeError "Moomoo OpenD is not running.")
  else
    perform (EvOpen trade_config) (OpenSecTradeContext w trade_config).

(** ** [get_accounts] *)

(** [data[data["trd_env"] == "REAL"]["acc_id"].values.tolist()] *)
Definition real_acc_ids (rows : list acc_row) : list string :=
  map acc_id (filter (fun r => String.eqb (trd_env r) "REAL") rows).

Definition get_accounts (trd_ctx : TradeContext) : M (list string) :=
  '(ret_, data) <- perform EvGetAccList (get_acc_list trd_ctx) ;;
  if ret_code_eqb ret_ RET_OK then
    match data with
    | DataFrame rows => ret (real_acc_ids rows)
    | Message _ => raise (TypeError "string indices must be integers")
    end
  else
    emit (EvPrint (AccListErrorLine data)) ;;
    ret [].

(** ** [export_account_data_for_web] *)

(** [df.shape[0]] *)
Definition shape0 {R : Type} (data : payload R) : M nat :=
  match data with
  | DataFrame rows => ret (List.length rows)
  | Message _ => raise (AttributeError "str" "shape")
  end.

(** [df.to_dict(orient="records")] *)
Definition to_dict_records {R : Type} (data : payload R) : M (list R) :=
  match data with
  | DataFrame rows => ret rows
  | Message _ => raise (AttributeError "str" "to_dict")
  end.

(** [xs[0]] *)
Definition first {R : Type} (xs : list R) : M R :=
  match xs with
  | x :: _ => ret x
  | [] => raise (IndexError "list index out of range")
  end.

(** [ret == RET_OK and data.shape[0] > 0], with the short circuit *)
Definition ok_and_nonempty {R : Type} (ret_ : ret_code) (data : payload R)
  : M bool :=
  if ret_code_eqb ret_ RET_OK then
    n <- shape0 data ;; ret (0 <? n)%nat
  else ret false.

(** [str(acc_id)[-4:]] *)
Definition last4 (s : string) : string :=
  substring (String.length s - 4) 4 s.

(** [str(n)] for a natural number *)
Definition str_of_nat (n : nat) : string :=
  NilEmpty.string_of_uint (Nat.to_uint n).

(** [f"account_{short_acc_id}_data_{timestamp}.json"] *)
Definition file_name (acc ts : string) : string :=
  "account_" ++ last4 acc ++ "_data_" ++ ts ++ ".json".

(** [THIS_DIR / f"account_{short_acc_id}_data_{timestamp}.json"] *)
Definition out_path (w : World) (acc ts : string) : Path :=
  {| path_dir := THIS_DIR w; path_name := file_name acc ts |}.

(** the literal [0.1]: the binary64 float nearest to one tenth *)
Definition activity_threshold : float := 0x1.999999999999ap-4%float.

Definition querying_line (acc : string) : string :=
  "Querying account: '" ++ acc ++ "'".

Definition skip_line (acc : string) : string :=
  "  [red bold]➜ Skip inactive account '" ++ acc ++ "'[/red bold]".

Definition positions_found_line (n : nat) : string :=
  "  [green bold]➜ Success[/green bold] " ++ str_of_nat n
  ++ " positions found.".

(** reading a local variable that may not have been assigned yet *)
Definition read_local {A : Type} (name : string) (v : option A) : M A :=
  match v with
  | Some a => ret a
  | None => raise (UnboundLocalError name)
  end.

(** The body of [for acc_id in acc_ids].  The local [total_assets_value]
    is not reset at the top of the body, so it is threaded through:
    [None] while it has never been assigned.  The body returns its value
    at the end of the pass ([continue] included). *)
Definition loop_body (trd_ctx : TradeContext) (w : World)
    (export_to_file : bool) (total_assets_value : option float)
    (acc : string) : M (option float) :=
  (* line 121 *)
  print (querying_line acc) ;;
  (* lines 123-131 *)
  '(ret_, positions_data) <-
     perform (EvPositionListQuery acc true) (position_list_query trd_ctx acc) ;;
  found <- ok_and_nonempty ret_ positions_data ;;
  (if (found : bool) then
     num_positions <- shape0 positions_data ;;
     print (positions_found_line num_positions)
   else ret tt) ;;
  (* lines 133-141; account_data["total_assets"].values[0] is the
     column's entry in the first row *)
  '(ret_, account_data) <-
     perform (EvAccInfoQuery acc USD true) (accinfo_query trd_ctx acc) ;;
  have_summary <- ok_and_nonempty ret_ account_data ;;
  total_assets_value <-
    (if (have_summary : bool) then
       rows <- to_dict_records account_data ;;
       row <- first rows ;;
       emit (EvPrint (TotalAssetsLine (total_assets row))) ;;
       ret (Some (total_assets row))
     else ret total_assets_value) ;;
  (* lines 143-145 *)
  v <- read_local "total_assets_value" total_assets_value ;;
  if (v <=? activity_threshold)%float then
    print (skip_line acc) ;;
    ret total_assets_value
  else
    (* lines 148-158 *)
    positions_data <- to_dict_records positions_data ;;
    rows <- to_dict_records account_data ;;
    account_data <- first rows ;;
    let ts := now w acc in
    let data := {| timestamp := ts;
                   account := account_data;
                   positions := positions_data |} in
    (if export_to_file then
       let path := out_path w acc ts in
       (* with open(out_path, "w") as f: json.dump(data, f, indent=4) *)
       pure_result (outcome (open_file w path)) ;;
       emit (EvOpenFile path) ;;
       pure_result (outcome (json_dump w path data)) ;;
       emit (EvWrite path data) ;;
       emit (EvPrint (ExportedLine path))
     else ret tt) ;;
    ret total_assets_value.

Fixpoint for_acc_ids (trd_ctx : TradeContext) (w : World)
    (export_to_file : bool) (total_assets_value : option float)
    (acc_ids : list string) : M (option float) :=
  match acc_ids with
  | [] => ret total_assets_value
  | acc :: rest =>
      total_assets_value <-
        loop_body trd_ctx w export_to_file total_assets_value acc ;;
      for_acc_ids trd_ctx w export_to_file total_assets_value rest
  end.

(** [acc_ids] is assigned only in the branch [acc_id is None]; the
    [for] statement then reads it. *)
Definition export_account_data_for_web (trd_ctx : TradeContext) (w : World)
    (acc_id : option string) (export_to_file : bool) : M unit :=
  acc_ids <-
    (match acc_id with
     | None => ids <- get_accounts trd_ctx ;; ret (Some ids)
     | Some _ => ret None
     end) ;;
  acc_ids <- read_local "acc_ids" acc_ids ;;
  for_acc_ids trd_ctx w export_to_file None acc_ids ;;
  ret tt.

(** ** The entry point *)

(** [try: body finally: fin]: [fin] runs whatever [body] did; an
    exception of [fin] replaces the pending one. *)
Definition try_finally {A : Type} (body : M A) (fin : M unit) : M A :=
  match body, fin with
  | (t, r), (t', Return _) => (t ++ t', r)
  | (t, _), (t', Raise e') => (t ++ t', Raise e')
  end.

Definition close_context (trd_ctx : TradeContext) : M unit :=
  perform EvClose (close trd_ctx) ;;
  print "Trade Context has been closed.".

(** [except Exception as e: raise e] re-raises what it caught, so the
    handler is the identity on outcomes.  The variable [trd_ctx] is
    [None] until [get_trade_context] has returned; the [finally] block
    closes it only after that. *)
Definition main (w : World) : M unit :=
  match (print "Acquiring trade context from Moomoo OpenD..." ;;
         get_trade_context w) with
  | (t, Raise e) => (t, Raise e)
  | (t, Return trd_ctx) =>
      let (t', r) :=
        try_finally
          (print "Trade context acquired." ;;
           export_account_data_for_web trd_ctx w None true)
          (close_context trd_ctx) in
      (t ++ t', r)
  end.

(** ** Observations on traces and answers *)

Definition is_connect (e : event) : bool :=
  match e with EvConnect _ _ _ => true | _ => false end.

(** an event of the readiness probe: socket or clock *)
Definition is_probe_event (e : event) : bool :=
  match e with
  | EvConnect _ _ _ | EvSleep _ => true
  | _ => false
  end.

Definition is_open (e : event) : bool :=
  match e with EvOpen _ => true | _ => false end.

Definition is_close (e : event) : bool :=
  match e with EvClose => true | _ => false end.

Definition is_write (e : event) : bool :=
  match e with EvWrite _ _ => true | _ => false end.

Definition is_open_file (e : event) : bool :=
  match e with EvOpenFile _ => true | _ => false end.

(** a call of one of the three query methods of the trade context *)
Definition is_query (e : event) : bool :=
  match e with
  | EvGetAccList | EvPositionListQuery _ _ | EvAccInfoQuery _ _ _ => true
  | _ => false
  end.

(** a query made for the account [acc] *)
Definition queries_account (acc : string) (e : event) : bool :=
  match e with
  | EvPositionListQuery a _ | EvAccInfoQuery a _ _ => String.eqb a acc
  | _ => false
  end.

Definition count (p : event -> bool) (t : trace) : nat :=
  List.length (filter p t).

(** the events of [n] refused connection attempts in a row *)
Fixpoint failed_attempts (host : string) (port : Z) (retry_delay : float)
    (n : nat) : trace :=
  match n with
  | O => []
  | S n' =>
      EvConnect host port retry_delay :: EvSleep retry_delay
        :: failed_attempts host port retry_delay n'
  end.

(** every connection attempt of the trace is made to [host:port] with
    socket timeout [d] *)
Definition attempts_bounded_by (host : string) (port : Z) (d : float)
    (t : trace) : Prop :=
  forall h p d', In (EvConnect h p d') t -> h = host /\ p = port /\ d' = d.

(** The listing of section 4.3 of the specification, in its words: keep
    the records tagged ["REAL"], project them to the account id, keep
    the order of the listing. *)
Inductive real_projection : list acc_row -> list string -> Prop :=
| rp_nil : real_projection [] []
| rp_real r rows ids :
    trd_env r = "REAL" ->
    real_projection rows ids ->
    real_projection (r :: rows) (acc_id r :: ids)
| rp_other r rows ids :
    trd_env r <> "REAL" ->
    real_projection rows ids ->
    real_projection (r :: rows) ids.

(** The call returned, and a success status came with a table. *)
Definition answered {R : Type} (r : result (ret_code * payload R)) : Prop :=
  match r with
  | Return (RET_OK, DataFrame _) => True
  | Return (RET_ERROR, _) => True
  | _ => False
  end.

(** The summary query succeeded: status OK and at least one row. *)
Definition summary_row (r : result (ret_code * payload acc_info))
  : option acc_info :=
  match r with
  | Return (RET_OK, DataFrame (row :: _)) => Some row
  | _ => None
  end.

(** The summary query returned a non-success status or an empty table. *)
Definition summary_degraded (r : result (ret_code * payload acc_info))
  : Prop :=
  match r with
  | Return (RET_ERROR, _) => True
  | Return (RET_OK, DataFrame []) => True
  | _ => False
  end.

(** What the local [total_assets_value] holds when line 143 compares
    it: the fresh value when the summary query succeeded, else what the
    variable held when the pass began. *)
Definition value_at_filter (r : result (ret_code * payload acc_info))
    (total_assets_value : option float) : option float :=
  match summary_row r with
  | Some row => Some (total_assets row)
  | None => total_assets_value
  end.

(** The total assets of the last account of [accs] whose summary query
    succeeded. *)
Fixpoint last_summary (trd_ctx : TradeContext) (accs : list string)
  : option float :=
  match accs with
  | [] => None
  | acc :: rest =>
      match last_summary trd_ctx rest with
      | Some v => Some v
      | None => option_map total_assets (summary_row (accinfo_query trd_ctx acc))
      end
  end.


(** ** Concrete worlds *)

Definition no_positions : result (ret_code * payload position) :=
  Return (RET_OK, DataFrame []).

Definition summary_of (v : float) : result (ret_code * payload acc_info) :=
  Return (RET_OK, DataFrame [mk_acc_info v [("currency", "USD")]]).

(** two real accounts (assets 500.00 and 0.00) and a simulated one *)
Definition listing_two_real : list acc_row :=
  [mk_acc_row "A1111" "REAL"; mk_acc_row "S3333" "SIMULATE";
   mk_acc_row "A2222" "REAL"].

Definition ctx_two_accounts : TradeContext :=
  {| get_acc_list := Return (RET_OK, DataFrame listing_two_real);
     position_list_query := fun _ => no_positions;
     accinfo_query := fun acc =>
       if String.eqb acc "A1111" then summary_of 500%float else summary_of 0%float;
     close := Return tt |}.

(** the same accounts, but the position query of the first one is
    answered [(RET_ERROR, "...")] *)
Definition ctx_positions_degraded : TradeContext :=
  {| get_acc_list := Return (RET_OK, DataFrame listing_two_real);
     position_list_query := fun acc =>
       if String.eqb acc "A1111"
       then Return (RET_ERROR, Message "request timed out")
       else no_positions;
     accinfo_query := fun acc =>
       if String.eqb acc "A1111" then summary_of 500%float else summary_of 0%float;
     close := Return tt |}.

(** the listing itself is answered with a non-success status *)
Definition ctx_listing_degraded : TradeContext :=
  {| get_acc_list := Return (RET_ERROR, Message "not logged in");
     position_list_query := fun _ => no_positions;
     accinfo_query := fun _ => summary_of 0%float;
     close := Return tt |}.

(** the first account is active; the summary query of the second one is
    answered with a non-success status *)
Definition ctx_summary_degraded : TradeContext :=
  {| get_acc_list := Return (RET_OK, DataFrame listing_two_real);
     position_list_query := fun _ => no_positions;
     accinfo_query := fun acc =>
       if String.eqb acc "A1111" then summary_of 500%float
       else Return (RET_ERROR, Message "request timed out");
     close := Return tt |}.

(** The [try] block of a probe iteration as the socket library
    decides it: a NaN or negative timeout is refused by [settimeout],
    a port outside 0..65535 by [connect]; otherwise the attempt
    connects when somebody listens and ends in a [socket.error] when
    nobody does. *)
Definition socket_attempt (listening : nat -> bool) (host : string)
    (port : Z) (socket_timeout : float) (k : nat) : attempt_outcome :=
  if PrimFloat.is_nan socket_timeout then
    OtherError (ValueError "Invalid value NaN (not a number)")
  else if (socket_timeout <? 0)%float then
    OtherError (ValueError "Timeout value out of range")
  else if ((port <? 0) || (65535 <? port))%Z then
    OtherError (OverflowError "connect(): port must be 0-65535.")
  else if listening k then Connected
  else SocketError.

(** [time.sleep] refuses a negative length. *)
Definition time_sleep (seconds : float) : option exn :=
  if (seconds <? 0)%float
  then Some (ValueError "sleep length must be non-negative")
  else None.

Definition world_of (listening : bool) (trd_ctx : TradeContext) : World :=
  {| attempt := socket_attempt (fun _ => listening);
     sleep := time_sleep;
     OpenSecTradeContext := fun _ => Return trd_ctx;
     THIS_DIR := "/home/user/Alloc/data";
     now := fun _ => "20240131_093000";
     open_file := fun _ => None;
     json_dump := fun _ _ => None |}.

(** the position query of the first account fails in transport *)
Definition ctx_fetch_fails : TradeContext :=
  {| get_acc_list := Return (RET_OK, DataFrame listing_two_real);
     position_list_query := fun acc =>
       if String.eqb acc "A1111" then Raise (SDKError "connection lost")
       else no_positions;
     accinfo_query := fun _ => summary_of 500%float;
     close := Return tt |}.

Definition world_not_listening : World := world_of false ctx_two_accounts.
Definition world_two_accounts : World := world_of true ctx_two_accounts.
Definition world_positions_degraded : World :=
  world_of true ctx_positions_degraded.
Definition world_fetch_fails : World := world_of true ctx_fetch_fails.
Definition world_summary_degraded : World :=
  world_of true ctx_summary_degraded.

(** ** Further observations *)

(** the files written, in order *)
Definition written_paths (t : trace) : list Path :=
  flat_map (fun e => match e with EvWrite p _ => [p] | _ => [] end) t.




(** the summary answer carries no row: an error text or an empty table *)
Definition summary_rowless (r : result (ret_code * payload acc_info))
  : Prop :=
  match r with
  | Return (_, Message _) => True
  | Return (_, DataFrame []) => True
  | _ => False
  end.

(** the line printed after a successful position query with rows *)
Definition positions_found_events (ret_ : ret_code) (prows : list position)
  : trace :=
  match ret_, prows with
  | RET_OK, _ :: _ =>
      [EvPrint (Text (positions_found_line (List.length prows)))]
  | _, _ => []
  end.

(** ** Further concrete worlds *)

(** the endpoint starts accepting at the attempt numbered [k0] *)
Definition world_listening_from (k0 : nat) : World :=
  {| attempt := socket_attempt (fun k => (k0 <=? k)%nat);
     sleep := time_sleep;
     OpenSecTradeContext := fun _ => Return ctx_two_accounts;
     THIS_DIR := "/home/user/Alloc/data";
     now := fun _ => "20240131_093000";
     open_file := fun _ => None;
     json_dump := fun _ _ => None |}.

Definition world_listing_degraded : World :=
  world_of true ctx_listing_degraded.

(** the first account holds two positions *)
Definition ctx_with_positions : TradeContext :=
  {| get_acc_list := Return (RET_OK, DataFrame listing_two_real);
     position_list_query := fun acc =>
       if String.eqb acc "A1111"
       then Return (RET_OK, DataFrame [[("code", "US.AAPL"); ("qty", "10")];
                                       [("code", "US.MSFT"); ("qty", "5")]])
       else no_positions;
     accinfo_query := fun acc =>
       if String.eqb acc "A1111" then summary_of 500%float else summary_of 0%float;
     close := Return tt |}.

Definition world_with_positions : World := world_of true ctx_with_positions.

(** the summary query of the first account is answered with an error *)
Definition ctx_first_summary_degraded : TradeContext :=
  {| get_acc_list := Return (RET_OK, DataFrame listing_two_real);
     position_list_query := fun _ => no_positions;
     accinfo_query := fun acc =>
       if String.eqb acc "A1111"
       then Return (RET_ERROR, Message "request timed out")
       else summary_of 500%float;
     close := Return tt |}.

(** every file can be opened, but the disk fills up while the
    snapshot is dumped *)
Definition world_disk_full : World :=
  {| attempt := socket_attempt (fun _ => true);
     sleep := time_sleep;
     OpenSecTradeContext := fun _ => Return ctx_two_accounts;
     THIS_DIR := "/home/user/Alloc/data";
     now := fun _ => "20240131_093000";
     open_file := fun _ => None;
     json_dump := fun _ _ => Some (OSError "No space left on device") |}.



(** the file of an account in the concrete worlds *)
Definition file_1111 : Path :=
  {| path_dir := "/home/user/Alloc/data";
     path_name := "account_1111_data_20240131_093000.json" |}.

(** * Properties *)

(** ** Proof automation *)

(** split on the remaining tests of a pass once the answers are known *)
Ltac split_cases :=
  repeat match goal with
  | |- context [if ?b then _ else _] => destruct b eqn:?; simpl
  | |- context [open_file ?w ?p] =>
      destruct (open_file w p) eqn:?; simpl; try congruence
  | |- context [json_dump ?w ?p ?d] =>
      destruct (json_dump w p d) eqn:?; simpl; try congruence
  end.

(** an event of an explicit trace, by search *)
Ltac find_event := repeat (first [ left; reflexivity | right ]).

(** membership in an explicit trace *)
Ltac in_trace H :=
  simpl in H;
  repeat (destruct H as [H | H]; try discriminate H);
  try contradiction.

(** ** Laws of the computation type *)

Lemma bind_ret_l {A B : Type} (a : A) (f : A -> M B) :
  bind (ret a) f = f a.
Proof. unfold bind, ret. destruct (f a) as [t r]. reflexivity. Qed.

Lemma bind_raise_l {A B : Type} (e : exn) (f : A -> M B) :
  bind (raise e) f = raise e.
Proof. reflexivity. Qed.

Lemma bind_assoc {A B C : Type} (m : M A) (f : A -> M B) (g : B -> M C) :
  bind (bind m f) g = bind m (fun a => bind (f a) g).
Proof.
  destruct m as [t [a | e]]; simpl; [ | reflexivity ].
  destruct (f a) as [t1 [b | e1]]; simpl; [ | reflexivity ].
  destruct (g b) as [t2 r2]. now rewrite app_assoc.
Qed.

(** running [m] and then [f]: the two outcomes of [m] *)
Lemma bind_return {A B : Type} (m : M A) (f : A -> M B) t a :
  m = (t, Return a) ->
  bind m f = (t ++ fst (f a), snd (f a)).
Proof. intros ->. simpl. now destruct (f a). Qed.

Lemma bind_raises {A B : Type} (m : M A) (f : A -> M B) t e :
  m = (t, Raise e) ->
  bind m f = (t, Raise e).
Proof. now intros ->. Qed.

Lemma count_app p (t1 t2 : trace) :
  count p (t1 ++ t2) = (count p t1 + count p t2)%nat.
Proof. unfold count. now rewrite filter_app, length_app. Qed.

Lemma count_cons p e (t : trace) :
  count p (e :: t) = ((if p e then 1 else 0) + count p t)%nat.
Proof. unfold count. simpl. now destruct (p e). Qed.

(** ** The readiness probe *)

(** past the division and the conversion, the probe is its loop *)
Lemma moomoo_is_running_loop w host port timeout retry_delay n :
  (retry_delay =? 0)%float = false ->
  int_of_float (timeout / retry_delay) = Return n ->
  moomoo_is_running w host port timeout retry_delay
  = probe_loop w host port retry_delay 0 (Z.to_nat n).
Proof.
  intros Hd Hn. unfold moomoo_is_running, true_div, pure_result.
  rewrite Hd, bind_ret_l, Hn. cbn [bind].
  now destruct (probe_loop w host port retry_delay 0 (Z.to_nat n)).
Qed.

Lemma probe_loop_refused w host port d :
  (forall k, attempt w host port d k = SocketError) ->
  sleep w d = None ->
  forall n k,
    probe_loop w host port d k n = (failed_attempts host port d n, Return false).
Proof.
  intros Hno Hs. induction n as [ | n IH]; intros k; [ reflexivity | ].
  cbn [probe_loop]. unfold perform. rewrite Hno, Hs. cbn [bind outcome].
  now rewrite IH.
Qed.

Lemma count_failed_attempts host port d n :
  count is_connect (failed_attempts host port d n) = n.
Proof.
  induction n as [ | n IH]; [ reflexivity | ].
  unfold count in *. simpl. now rewrite IH.
Qed.

Lemma failed_attempts_bounded host port d n :
  attempts_bounded_by host port d (failed_attempts host port d n).
Proof.
  unfold attempts_bounded_by.
  induction n as [ | n IH]; simpl; intros h p d' Hin; [ easy | ].
  destruct Hin as [Heq | [Heq | Hin]].
  - now inversion Heq.
  - discriminate.
  - now apply IH.
Qed.

(** C7, as amended.  Let [n] be [int(timeout / retry_delay)], the
    truncation of the binary64 quotient the code computes, for a retry
    interval that is not zero and a finite quotient.  When every
    connection attempt on the endpoint ends in a [socket.error] and
    [time.sleep(retry_delay)] returns, [moomoo_is_running] performs
    exactly [max 0 n] connection attempts, each with [retry_delay] as
    its socket timeout and each followed by a sleep of [retry_delay],
    and returns [False] without raising. *)
Theorem moomoo_is_running_refused w host port timeout retry_delay n :
  (retry_delay =? 0)%float = false ->
  int_of_float (timeout / retry_delay) = Return n ->
  (forall k, attempt w host port retry_delay k = SocketError) ->
  sleep w retry_delay = None ->
  exists t,
    moomoo_is_running w host port timeout retry_delay = (t, Return false)
    /\ Z.of_nat (count is_connect t) = Z.max 0 n
    /\ attempts_bounded_by host port retry_delay t.
Proof.
  intros Hd Hn Hno Hs.
  exists (failed_attempts host port retry_delay (Z.to_nat n)).
  split; [ | split ].
  - rewrite (moomoo_is_running_loop _ _ _ _ _ _ Hd Hn).
    now apply probe_loop_refused.
  - rewrite count_failed_attempts. lia.
  - apply failed_attempts_bounded.
Qed.

(** With the defaults (3 s, 0.5 s) and nobody listening: six attempts,
    then [False]. *)
Lemma moomoo_is_running_refused_witness :
  exists t,
    moomoo_is_running world_not_listening default_host default_port
      default_timeout default_retry_delay = (t, Return false)
    /\ Z.of_nat (count is_connect t) = 6%Z
    /\ attempts_bounded_by default_host default_port default_retry_delay t.
Proof.
  apply (moomoo_is_running_refused world_not_listening default_host
           default_port default_timeout default_retry_delay 6).
  - reflexivity.
  - reflexivity.
  - intros k. reflexivity.
  - reflexivity.
Defined.

(** C7, as stated, fails when the retry interval is zero: the quotient
    [timeout / retry_delay] raises before any attempt is made. *)
Lemma moomoo_is_running_zero_delay_raises :
  moomoo_is_running world_not_listening default_host default_port
    3%float 0%float
  = ([], Raise ZeroDivisionError)
  /\ (forall k, attempt world_not_listening default_host default_port
                  0%float k = SocketError)
  /\ snd (moomoo_is_running world_not_listening default_host default_port
            3%float 0%float)
     <> Return false.
Proof.
  split; [ reflexivity | split; [ reflexivity | discriminate ] ].
Qed.

(** The count follows the binary64 quotient, not the quotient of the
    decimals as written: [0.3 / 0.1] is just below 3 and gives two
    attempts. *)
Example moomoo_is_running_rounded_quotient :
  int_of_float (0x1.3333333333333p-2 / 0x1.999999999999ap-4)%float = Return 2%Z
  /\ count is_connect
       (fst (moomoo_is_running world_not_listening default_host default_port
               0x1.3333333333333p-2%float 0x1.999999999999ap-4%float))
     = 2%nat.
Proof. split; reflexivity. Qed.

(** A quotient that overflows to an infinity makes [int] raise; a port
    outside 0..65535 makes [connect] raise an error that is not a
    [socket.error]. *)
Example moomoo_is_running_overflow :
  snd (moomoo_is_running world_not_listening default_host default_port
         3%float 0x0.012688b70e62bp-1022%float)
  = Raise (OverflowError "cannot convert float infinity to integer")
  /\ snd (moomoo_is_running world_not_listening default_host 70000
            default_timeout default_retry_delay)
     = Raise (OverflowError "connect(): port must be 0-65535.").
Proof. split; reflexivity. Qed.

(** The probe touches the socket and the clock, nothing else. *)
Lemma probe_loop_events w host port d n :
  forall k, Forall (fun e => is_probe_event e = true)
                   (fst (probe_loop w host port d k n)).
Proof.
  induction n as [ | n IH]; intros k; cbn [probe_loop]; [ constructor | ].
  unfold perform.
  destruct (attempt w host port d k); cbn [bind];
    try (repeat constructor; fail).
  specialize (IH (S k)).
  destruct (sleep w d); cbn [bind outcome]; [ repeat constructor | ].
  destruct (probe_loop w host port d (S k) n) as [t r]. cbn [fst app] in *.
  repeat constructor. exact IH.
Qed.

Lemma moomoo_is_running_events w host port timeout d :
  Forall (fun e => is_probe_event e = true)
         (fst (moomoo_is_running w host port timeout d)).
Proof.
  unfold moomoo_is_running, true_div, pure_result.
  destruct (d =? 0)%float; [ constructor | ].
  rewrite bind_ret_l.
  destruct (int_of_float (timeout / d)) as [n | e]; cbn [bind];
    [ | constructor ].
  pose proof (probe_loop_events w host port d (Z.to_nat n) 0) as H.
  destruct (probe_loop w host port d 0 (Z.to_nat n)). exact H.
Qed.

Lemma count_none (p q : event -> bool) (t : trace) :
  (forall e, q e = true -> p e = false) ->
  Forall (fun e => q e = true) t ->
  count p t = 0%nat.
Proof.
  intros Hpq Hall. unfold count.
  induction Hall as [ | e t He _ IH]; [ reflexivity | ].
  simpl. now rewrite (Hpq e He).
Qed.

(** [count p t = 0] when every event of [t] is a probe event *)
Ltac probe_count :=
  eapply count_none; [ | eassumption ];
  intros [] Hq; simpl in Hq; (discriminate || reflexivity).

(** ** Acquiring the trade context *)

(** C8.  When the probe (run with its defaults) answers [False],
    [get_trade_context] raises [RuntimeError] without calling the
    constructor, and the whole run ends with that error having opened no
    session, queried no account, written no file and closed nothing.
    When the probe answers [True], the constructor is called with the
    fixed configuration (US market, FUTUSG) and its outcome is the
    outcome of [get_trade_context]. *)
Theorem get_trade_context_gated w t :
  (moomoo_is_running w default_host default_port default_timeout
     default_retry_delay = (t, Return false) ->
   get_trade_context w
   = (t ++ [EvPrint (Text not_running_line)],
      Raise (RuntimeError "Moomoo OpenD is not running."))
   /\ exists t',
       main w = (t', Raise (RuntimeError "Moomoo OpenD is not running."))
       /\ count is_open t' = 0%nat /\ count is_query t' = 0%nat
       /\ count is_write t' = 0%nat /\ count is_close t' = 0%nat)
  /\
  (moomoo_is_running w default_host default_port default_timeout
     default_retry_delay = (t, Return true) ->
   get_trade_context w
   = (t ++ [EvOpen trade_config], OpenSecTradeContext w trade_config)
   /\ filter_trdmarket trade_config = TrdMarket_US
   /\ security_firm trade_config = FUTUSG
   /\ count is_open t = 0%nat).
Proof.
  pose proof (moomoo_is_running_events w default_host default_port
                default_timeout default_retry_delay) as Hev.
  split; intros Hprobe; rewrite Hprobe in Hev; simpl in Hev.
  - assert (Hctx : get_trade_context w
                   = (t ++ [EvPrint (Text not_running_line)],
                      Raise (RuntimeError "Moomoo OpenD is not running."))).
    { unfold get_trade_context. rewrite Hprobe. reflexivity. }
    split; [ exact Hctx | ].
    eexists. split.
    + unfold main. unfold bind at 1. unfold print, emit.
      rewrite Hctx. reflexivity.
    + simpl. repeat split.
      all: rewrite count_cons, count_app; simpl.
      all: replace (count _ t) with 0%nat; [ reflexivity | ].
      all: symmetry; probe_count.
  - repeat split.
    + unfold get_trade_context. rewrite Hprobe. reflexivity.
    + probe_count.
Qed.

Lemma get_trade_context_gated_witness :
  (exists t',
      main world_not_listening
      = (t', Raise (RuntimeError "Moomoo OpenD is not running."))
      /\ count is_open t' = 0%nat /\ count is_query t' = 0%nat
      /\ count is_write t' = 0%nat /\ count is_close t' = 0%nat)
  /\ get_trade_context world_two_accounts
     = ([EvConnect default_host default_port default_retry_delay;
         EvOpen trade_config],
        Return ctx_two_accounts).
Proof.
  split.
  - apply (get_trade_context_gated world_not_listening
             (failed_attempts default_host default_port
                default_retry_delay 6)).
    reflexivity.
  - apply (get_trade_context_gated world_two_accounts
             [EvConnect default_host default_port default_retry_delay]).
    reflexivity.
Defined.

(** ** Enumerating the accounts *)

Lemma real_acc_ids_projection rows :
  real_projection rows (real_acc_ids rows).
Proof.
  unfold real_acc_ids.
  induction rows as [ | r rows IH]; simpl; [ constructor | ].
  destruct (String.eqb_spec (trd_env r) "REAL") as [Heq | Hne]; simpl.
  - now apply rp_real.
  - now apply rp_other.
Qed.

(** the specification's relation determines the ids *)
Lemma real_projection_unique rows ids ids' :
  real_projection rows ids -> real_projection rows ids' -> ids = ids'.
Proof.
  intros H. revert ids'.
  induction H as [ | r rows ids Hr _ IH | r rows ids Hr _ IH];
    intros ids' H'; inversion H'; subst;
    try reflexivity; try contradiction.
  - f_equal. now apply IH.
  - now apply IH.
Qed.

(** C9.  On status OK, [get_accounts] returns the account ids of the
    records tagged ["REAL"], in listing order; on a non-success status
    it prints the payload and returns the empty list. *)
Theorem get_accounts_spec trd_ctx :
  (forall rows,
      get_acc_list trd_ctx = Return (RET_OK, DataFrame rows) ->
      exists ids,
        get_accounts trd_ctx = ([EvGetAccList], Return ids)
        /\ real_projection rows ids)
  /\
  (forall data,
      get_acc_list trd_ctx = Return (RET_ERROR, data) ->
      get_accounts trd_ctx
      = ([EvGetAccList; EvPrint (AccListErrorLine data)], Return [])).
Proof.
  split.
  - intros rows Hlist. exists (real_acc_ids rows). split.
    + unfold get_accounts. rewrite Hlist. reflexivity.
    + apply real_acc_ids_projection.
  - intros data Hlist. unfold get_accounts. rewrite Hlist. reflexivity.
Qed.

Lemma get_accounts_spec_witness :
  (exists ids,
      get_accounts ctx_two_accounts = ([EvGetAccList], Return ids)
      /\ real_projection listing_two_real ids)
  /\ get_accounts ctx_listing_degraded
     = ([EvGetAccList;
         EvPrint (AccListErrorLine (Message "not logged in"))],
        Return []).
Proof.
  split.
  - apply (proj1 (get_accounts_spec ctx_two_accounts)). reflexivity.
  - apply (proj2 (get_accounts_spec ctx_listing_degraded)). reflexivity.
Defined.

Example get_accounts_two_real :
  get_accounts ctx_two_accounts = ([EvGetAccList], Return ["A1111"; "A2222"]).
Proof. reflexivity. Qed.

(** ** The single-account parameter *)

(** C10.  Called with an account id, [export_account_data_for_web]
    raises [UnboundLocalError] (a [NameError]) for [acc_ids] before any
    event; called with [None] it starts by listing the accounts. *)
Theorem export_with_acc_id_raises trd_ctx w acc export_to_file :
  (exists e,
      export_account_data_for_web trd_ctx w (Some acc) export_to_file
      = ([], Raise e)
      /\ e = UnboundLocalError "acc_ids"
      /\ is_NameError e = true)
  /\
  (exists t r,
      export_account_data_for_web trd_ctx w None export_to_file
      = (EvGetAccList :: t, r)).
Proof.
  split.
  - exists (UnboundLocalError "acc_ids"). repeat split.
  - unfold export_account_data_for_web.
    rewrite bind_assoc. unfold get_accounts at 1. rewrite bind_assoc.
    unfold perform. destruct (get_acc_list trd_ctx) as [[rc data] | e].
    + simpl. match goal with |- context [let (_, _) := ?m in _] =>
        destruct m as [t r] end.
      exists t, r. reflexivity.
    + exists [], (Raise e). reflexivity.
Qed.

(** ** One pass of the per-account loop *)


(** A pass that ends normally leaves in [total_assets_value] the value
    it compared. *)
Lemma loop_body_return trd_ctx w export_to_file tav acc t tav' :
  loop_body trd_ctx w export_to_file tav acc = (t, Return tav') ->
  tav' = value_at_filter (accinfo_query trd_ctx acc) tav.
Proof.
  unfold loop_body, value_at_filter, summary_row, perform, print, emit.
  destruct (position_list_query trd_ctx acc) as [[[] [prows | pmsg]] | e];
  destruct (accinfo_query trd_ctx acc) as [[[] [[ | row arows] | amsg]] | e'];
  destruct tav as [v0 | ]; simpl; split_cases; intros H;
  try discriminate H; now injection H as _ <-.
Qed.

(** A pass neither opens nor closes a session. *)
Lemma loop_body_no_session trd_ctx w export_to_file tav acc :
  Forall (fun e => is_open e = false /\ is_close e = false)
         (fst (loop_body trd_ctx w export_to_file tav acc)).
Proof.
  unfold loop_body, perform, print, emit.
  destruct (position_list_query trd_ctx acc) as [[[] [prows | pmsg]] | e];
  destruct (accinfo_query trd_ctx acc) as [[[] [[ | row arows] | amsg]] | e'];
  destruct tav as [v0 | ]; simpl; split_cases;
  repeat (constructor; [ split; reflexivity | ]); constructor.
Qed.





(** ** The per-account loop *)

Lemma bind_ext {A B : Type} (m : M A) (f g : A -> M B) :
  (forall a, f a = g a) -> bind m f = bind m g.
Proof.
  intros H. destruct m as [t [a | e]]; simpl; [ | reflexivity ].
  now rewrite H.
Qed.

Section Loop.
Variable trd_ctx : TradeContext.
Variable w : World.
Variable export_to_file : bool.

Lemma for_acc_ids_app tav pre post :
  for_acc_ids trd_ctx w export_to_file tav (pre ++ post)
  = bind (for_acc_ids trd_ctx w export_to_file tav pre)
         (fun tav' => for_acc_ids trd_ctx w export_to_file tav' post).
Proof.
  revert tav.
  induction pre as [ | acc pre IH]; intros tav; cbn [for_acc_ids app].
  - now rewrite bind_ret_l.
  - rewrite bind_assoc. apply bind_ext. intros tav'. apply IH.
Qed.

(** The loop stops at the first pass that raises: with that
    exception, and without an event for a later account. *)
Lemma for_acc_ids_raise tav0 pre acc post t_pre tav t e :
  for_acc_ids trd_ctx w export_to_file tav0 pre = (t_pre, Return tav) ->
  loop_body trd_ctx w export_to_file tav acc = (t, Raise e) ->
  for_acc_ids trd_ctx w export_to_file tav0 (pre ++ acc :: post)
  = (t_pre ++ t, Raise e).
Proof.
  intros Hpre Hbody. rewrite for_acc_ids_app.
  rewrite (bind_return _ _ _ _ Hpre). cbn [for_acc_ids].
  rewrite (bind_raises _ _ _ _ Hbody). reflexivity.
Qed.

(** Every event of the loop belongs to the pass of one account,
    reached after the passes before it ended normally. *)
Lemma for_acc_ids_event accs :
  forall tav0 ev,
    In ev (fst (for_acc_ids trd_ctx w export_to_file tav0 accs)) ->
    exists pre acc post t_pre tav,
      accs = pre ++ acc :: post
      /\ for_acc_ids trd_ctx w export_to_file tav0 pre
         = (t_pre, Return tav)
      /\ In ev (fst (loop_body trd_ctx w export_to_file tav acc)).
Proof.
  induction accs as [ | acc accs IH]; intros tav0 ev Hin.
  - contradiction.
  - cbn [for_acc_ids] in Hin.
    destruct (loop_body trd_ctx w export_to_file tav0 acc)
      as [t [tav1 | e]] eqn:Hbody.
    + rewrite (bind_return _ _ _ _ eq_refl) in Hin. cbn [fst] in Hin.
      apply in_app_or in Hin. destruct Hin as [Hin | Hin].
      * exists [], acc, accs, [], tav0. rewrite Hbody. now repeat split.
      * destruct (IH tav1 ev Hin)
          as (pre & a & post & t_pre & tav & -> & Hpre & Hev).
        exists (acc :: pre), a, post, (t ++ t_pre), tav.
        repeat split; [ | exact Hev ].
        cbn [for_acc_ids]. rewrite (bind_return _ _ _ _ Hbody).
        now rewrite Hpre.
    + rewrite (bind_raises _ _ _ _ eq_refl) in Hin. cbn [fst] in Hin.
      exists [], acc, accs, [], tav0. rewrite Hbody. now repeat split.
Qed.

(** After the loop, [total_assets_value] holds the total assets of
    the last account whose summary query succeeded, if any. *)
Lemma for_acc_ids_return accs :
  forall tav0 t tav,
    for_acc_ids trd_ctx w export_to_file tav0 accs = (t, Return tav) ->
    tav = match last_summary trd_ctx accs with
          | Some v => Some v
          | None => tav0
          end.
Proof.
  induction accs as [ | acc accs IH]; intros tav0 t tav Hloop.
  - cbn in Hloop. now injection Hloop as _ <-.
  - cbn [for_acc_ids] in Hloop.
    destruct (loop_body trd_ctx w export_to_file tav0 acc)
      as [t1 [tav1 | e]] eqn:Hbody.
    + rewrite (bind_return _ _ _ _ eq_refl) in Hloop.
      apply loop_body_return in Hbody.
      destruct (for_acc_ids trd_ctx w export_to_file tav1 accs)
        as [t2 r2] eqn:Hrest.
      cbn [fst snd] in Hloop. injection Hloop as _ ->.
      apply IH in Hrest. cbn [last_summary].
      destruct (last_summary trd_ctx accs); [ exact Hrest | ].
      rewrite Hrest, Hbody. unfold value_at_filter.
      now destruct (summary_row (accinfo_query trd_ctx acc)).
    + rewrite (bind_raises _ _ _ _ eq_refl) in Hloop. discriminate.
Qed.

Lemma for_acc_ids_no_session accs :
  forall tav0,
    Forall (fun e => is_open e = false /\ is_close e = false)
           (fst (for_acc_ids trd_ctx w export_to_file tav0 accs)).
Proof.
  induction accs as [ | acc accs IH]; intros tav0;
    cbn [for_acc_ids]; [ constructor | ].
  pose proof (loop_body_no_session trd_ctx w export_to_file tav0 acc) as Hb.
  destruct (loop_body trd_ctx w export_to_file tav0 acc)
    as [t [tav1 | e]] eqn:Hbody; cbn [fst] in Hb.
  - rewrite (bind_return _ _ _ _ eq_refl). cbn [fst].
    apply Forall_app. split; [ exact Hb | apply IH ].
  - now rewrite (bind_raises _ _ _ _ eq_refl).
Qed.
End Loop.

(** ** The export function and the entry point *)

Lemma export_unfold trd_ctx w export_to_file :
  export_account_data_for_web trd_ctx w None export_to_file
  = bind (get_accounts trd_ctx)
         (fun ids =>
            bind (for_acc_ids trd_ctx w export_to_file None ids)
                 (fun _ => ret tt)).
Proof.
  unfold export_account_data_for_web. rewrite bind_assoc.
  apply bind_ext. intros ids. rewrite bind_ret_l.
  cbn [read_local]. now rewrite bind_ret_l.
Qed.

(** what [get_accounts] does: the listing call, then at most a line on
    the console *)
Lemma get_accounts_events trd_ctx ev :
  In ev (fst (get_accounts trd_ctx)) ->
  ev = EvGetAccList \/ exists data, ev = EvPrint (AccListErrorLine data).
Proof.
  unfold get_accounts, perform, emit.
  destruct (get_acc_list trd_ctx) as [[[] [rows | msg]] | e]; simpl;
    intros H; in_trace H; subst; eauto.
Qed.

Lemma bind_events {A B : Type} (m : M A) (f : A -> M B) ev :
  In ev (fst (bind m f)) ->
  In ev (fst m) \/ exists a, snd m = Return a /\ In ev (fst (f a)).
Proof.
  destruct m as [t [a | e]]; simpl; [ | now left ].
  destruct (f a) as [t' r] eqn:Hf. simpl. intros H.
  apply in_app_or in H. destruct H as [H | H]; [ now left | right ].
  exists a. rewrite Hf. now split.
Qed.

(** Every event of [export_account_data_for_web] is either part of
    the enumeration or an event of the loop over the enumerated ids. *)
Lemma export_events trd_ctx w export_to_file ev :
  In ev (fst (export_account_data_for_web trd_ctx w None export_to_file)) ->
  In ev (fst (get_accounts trd_ctx))
  \/ exists ids,
      snd (get_accounts trd_ctx) = Return ids
      /\ In ev (fst (for_acc_ids trd_ctx w export_to_file None ids)).
Proof.
  rewrite export_unfold. intros H.
  apply bind_events in H. destruct H as [H | (ids & Hids & H)]; [ now left | ].
  right. exists ids. split; [ exact Hids | ].
  apply bind_events in H. destruct H as [H | (u & _ & H)]; [ exact H | ].
  contradiction.
Qed.

Lemma export_no_session trd_ctx w acc_id export_to_file :
  Forall (fun e => is_open e = false /\ is_close e = false)
    (fst (export_account_data_for_web trd_ctx w acc_id export_to_file)).
Proof.
  destruct acc_id as [a | ]; [ constructor | ].
  apply Forall_forall. intros ev Hin.
  apply export_events in Hin. destruct Hin as [Hin | (ids & _ & Hin)].
  - apply get_accounts_events in Hin.
    destruct Hin as [-> | [data ->]]; now split.
  - pose proof (for_acc_ids_no_session trd_ctx w export_to_file ids None) as H.
    rewrite Forall_forall in H. now apply H.
Qed.

(** [get_trade_context] performs the probe and then either a line on
    the console or the constructor call. *)
Lemma get_trade_context_events w ev :
  In ev (fst (get_trade_context w)) ->
  is_probe_event ev = true
  \/ ev = EvPrint (Text not_running_line)
  \/ ev = EvOpen trade_config.
Proof.
  unfold get_trade_context.
  pose proof (moomoo_is_running_events w default_host default_port
                default_timeout default_retry_delay) as Hev.
  rewrite Forall_forall in Hev.
  destruct (moomoo_is_running w default_host default_port default_timeout
              default_retry_delay) as [t [[ | ] | e]];
    simpl in *; intros H; try apply in_app_or in H;
    try destruct H as [H | H]; auto; in_trace H; auto.
Qed.

(** The trace of [main] when the trade context was acquired. *)
Lemma main_acquired w t0 trd_ctx :
  get_trade_context w = (t0, Return trd_ctx) ->
  main w
  = let body := export_account_data_for_web trd_ctx w None true in
    let fin := close_context trd_ctx in
    (EvPrint (Text "Acquiring trade context from Moomoo OpenD...") :: t0
       ++ EvPrint (Text "Trade context acquired.") :: fst body ++ fst fin,
     match snd fin with
     | Return _ => snd body
     | Raise e' => Raise e'
     end).
Proof.
  intros Hctx. unfold main, print, emit. cbn [bind]. rewrite Hctx.
  cbn zeta.
  destruct (export_account_data_for_web trd_ctx w None true) as [tb rb].
  unfold try_finally. cbn [bind fst snd].
  destruct rb as [u | e]; destruct (close_context trd_ctx) as [tf [u' | e']];
    cbn [fst snd app]; reflexivity.
Qed.

Lemma main_not_acquired w t0 e :
  get_trade_context w = (t0, Raise e) ->
  main w
  = (EvPrint (Text "Acquiring trade context from Moomoo OpenD...") :: t0,
     Raise e).
Proof.
  intros Hctx. unfold main, print, emit. cbn [bind]. now rewrite Hctx.
Qed.

Lemma last_summary_app trd_ctx l1 l2 :
  last_summary trd_ctx (l1 ++ l2)
  = match last_summary trd_ctx l2 with
    | Some v => Some v
    | None => last_summary trd_ctx l1
    end.
Proof.
  induction l1 as [ | a l1 IH]; cbn [app last_summary].
  - now destruct (last_summary trd_ctx l2).
  - rewrite IH. now destruct (last_summary trd_ctx l2).
Qed.

Lemma last_summary_none trd_ctx l :
  (forall a, In a l -> summary_row (accinfo_query trd_ctx a) = None) ->
  last_summary trd_ctx l = None.
Proof.
  induction l as [ | a l IH]; intros H; cbn [last_summary]; [ reflexivity | ].
  rewrite IH by (intros b Hb; apply H; now right).
  now rewrite (H a (or_introl eq_refl)).
Qed.

Lemma last_summary_latest trd_ctx pre prev mid row :
  summary_row (accinfo_query trd_ctx prev) = Some row ->
  (forall a, In a mid -> summary_row (accinfo_query trd_ctx a) = None) ->
  last_summary trd_ctx (pre ++ prev :: mid) = Some (total_assets row).
Proof.
  intros Hprev Hmid. rewrite last_summary_app. cbn [last_summary].
  now rewrite (last_summary_none _ _ Hmid), Hprev.
Qed.

(** ** Skipping inactive accounts *)

(** A pass whose queries answered and whose compared value passes the
    test [<= 0.1] ends with the skip notice and writes nothing. *)
Lemma loop_body_inactive trd_ctx w export_to_file tav acc v :
  answered (position_list_query trd_ctx acc) ->
  answered (accinfo_query trd_ctx acc) ->
  value_at_filter (accinfo_query trd_ctx acc) tav = Some v ->
  (v <=? activity_threshold)%float = true ->
  exists t,
    loop_body trd_ctx w export_to_file tav acc
    = (t ++ [EvPrint (Text (skip_line acc))], Return (Some v))
    /\ count is_write t = 0%nat.
Proof.
  unfold loop_body, value_at_filter, summary_row, answered,
    perform, print, emit.
  destruct (position_list_query trd_ctx acc) as [[[] [prows | pmsg]] | e];
  destruct (accinfo_query trd_ctx acc) as [[[] [[ | row arows] | amsg]] | e'];
  destruct tav as [v0 | ]; simpl; intros Hp Ha Hv Hle;
    try contradiction; try discriminate Hv;
    injection Hv as ->; rewrite Hle;
    split_cases;
    match goal with
    | |- exists t, (?l, _) = _ /\ _ =>
        exists (removelast l); split; reflexivity
    end.
Qed.




(** ** Writing only for active accounts *)

Lemma main_write w path data :
  In (EvWrite path data) (fst (main w)) ->
  exists t0 trd_ctx ids,
    get_trade_context w = (t0, Return trd_ctx)
    /\ snd (get_accounts trd_ctx) = Return ids
    /\ In (EvWrite path data) (fst (for_acc_ids trd_ctx w true None ids)).
Proof.
  destruct (get_trade_context w) as [t0 [trd_ctx | e]] eqn:Hctx.
  - rewrite (main_acquired _ _ _ Hctx). cbn [fst]. intros H.
    exists t0, trd_ctx.
    destruct H as [H | H]; [ discriminate H | ].
    apply in_app_or in H. destruct H as [H | H].
    { assert (Hin : In (EvWrite path data) (fst (get_trade_context w)))
        by now rewrite Hctx.
      apply get_trade_context_events in Hin.
      destruct Hin as [Hin | [Hin | Hin]]; discriminate Hin. }
    destruct H as [H | H]; [ discriminate H | ].
    apply in_app_or in H. destruct H as [H | H].
    + apply export_events in H. destruct H as [H | (ids & Hids & H)].
      * apply get_accounts_events in H.
        destruct H as [H | [d H]]; discriminate H.
      * exists ids. now repeat split.
    + unfold close_context, perform, print, emit in H.
      destruct (close trd_ctx); in_trace H.
  - rewrite (main_not_acquired _ _ _ Hctx). cbn [fst]. intros H.
    destruct H as [H | H]; [ discriminate H | ].
    assert (Hin : In (EvWrite path data) (fst (get_trade_context w)))
      by now rewrite Hctx.
    apply get_trade_context_events in Hin.
    destruct Hin as [Hin | [Hin | Hin]]; discriminate Hin.
Qed.




(** The scenario of the specification: one file, for [A1111]. *)
Example main_two_accounts_writes :
  filter is_write (fst (main world_two_accounts))
  = [EvWrite file_1111
       {| timestamp := "20240131_093000";
          account := mk_acc_info 500%float [("currency", "USD")];
          positions := [] |}]
  /\ snd (main world_two_accounts) = Return tt.
Proof. split; reflexivity. Qed.

(** ** The stale [total_assets_value] *)

(** C3.  Let the loop reach [acc] after a pass for [prev] whose summary
    query succeeded, the accounts in between (if any) having had no
    successful summary.  If the summary query of [acc] comes back with a
    non-success status or an empty table, the value the filter compares
    for [acc] is the total assets of [prev]: [acc] is skipped exactly
    when that left-over value is at most 0.1. *)
Theorem stale_total_assets_compared trd_ctx w export_to_file tav0
    pre prev mid acc row t_pre tav :
  for_acc_ids trd_ctx w export_to_file tav0 (pre ++ prev :: mid)
  = (t_pre, Return tav) ->
  summary_row (accinfo_query trd_ctx prev) = Some row ->
  (forall a, In a mid -> summary_row (accinfo_query trd_ctx a) = None) ->
  answered (position_list_query trd_ctx acc) ->
  summary_degraded (accinfo_query trd_ctx acc) ->
  tav = Some (total_assets row)
  /\ value_at_filter (accinfo_query trd_ctx acc) tav
     = Some (total_assets row)
  /\ if (total_assets row <=? activity_threshold)%float
     then exists t,
         loop_body trd_ctx w export_to_file tav acc
         = (t ++ [EvPrint (Text (skip_line acc))], Return tav)
         /\ count is_write t = 0%nat
     else ~ In (EvPrint (Text (skip_line acc)))
               (fst (loop_body trd_ctx w export_to_file tav acc)).
Proof.
  intros Hloop Hprev Hmid Hp Ha.
  apply for_acc_ids_return in Hloop.
  rewrite (last_summary_latest _ _ _ _ _ Hprev Hmid) in Hloop. subst tav.
  assert (Hv : value_at_filter (accinfo_query trd_ctx acc)
                 (Some (total_assets row)) = Some (total_assets row)).
  { unfold value_at_filter, summary_row, summary_degraded in *.
    destruct (accinfo_query trd_ctx acc) as [[[] [[ | r rs] | m]] | e];
      try contradiction; reflexivity. }
  split; [ reflexivity | split; [ exact Hv | ] ].
  destruct ((total_assets row <=? activity_threshold)%float) eqn:Hcmp.
  - destruct (loop_body_inactive trd_ctx w export_to_file
                (Some (total_assets row)) acc (total_assets row))
      as [t [Hrun Hcount]]; auto.
    + unfold summary_degraded, answered in *.
      destruct (accinfo_query trd_ctx acc) as [[[] [[ | r rs] | m]] | e];
        try contradiction; exact I.
    + now exists t.
  - unfold loop_body, summary_degraded, answered, perform, print, emit in *.
    unfold querying_line, skip_line, positions_found_line.
    destruct (position_list_query trd_ctx acc) as [[[] [prows | pmsg]] | e];
    destruct (accinfo_query trd_ctx acc) as [[[] [[ | r rs] | m]] | e'];
      try contradiction; simpl; rewrite Hcmp; simpl; split_cases;
      intros H; in_trace H.
Qed.

Lemma stale_total_assets_compared_witness :
  Some 500%float = Some 500%float
  /\ value_at_filter (accinfo_query ctx_summary_degraded "A2222") (Some 500%float)
     = Some 500%float
  /\ ~ In (EvPrint (Text (skip_line "A2222")))
          (fst (loop_body ctx_summary_degraded world_summary_degraded true
                  (Some 500%float) "A2222")).
Proof.
  pose proof (stale_total_assets_compared ctx_summary_degraded
                world_summary_degraded true None [] "A1111" [] "A2222"
                (mk_acc_info 500%float [("currency", "USD")])
                [EvPrint (Text (querying_line "A1111"));
                 EvPositionListQuery "A1111" true;
                 EvAccInfoQuery "A1111" USD true;
                 EvPrint (TotalAssetsLine 500%float);
                 EvOpenFile file_1111;
                 EvWrite file_1111
                   {| timestamp := "20240131_093000";
                      account := mk_acc_info 500%float [("currency", "USD")];
                      positions := [] |};
                 EvPrint (ExportedLine file_1111)]
                (Some 500%float)) as H.
  apply H.
  - reflexivity.
  - reflexivity.
  - intros a [].
  - exact I.
  - exact I.
Defined.

(** On the account after an active one, a degraded summary leaves 500
    in the variable: the account is not skipped, and the conversion of
    the diagnostic then raises. *)
Example main_summary_degraded :
  snd (main world_summary_degraded) = Raise (AttributeError "str" "to_dict")
  /\ count is_write (fst (main world_summary_degraded)) = 1%nat.
Proof. split; reflexivity. Qed.

(** Without an earlier successful summary the variable was never
    assigned. *)
Lemma unbound_total_assets trd_ctx w export_to_file acc :
  answered (position_list_query trd_ctx acc) ->
  summary_degraded (accinfo_query trd_ctx acc) ->
  snd (loop_body trd_ctx w export_to_file None acc)
  = Raise (UnboundLocalError "total_assets_value").
Proof.
  unfold loop_body, summary_degraded, answered, perform, print, emit.
  destruct (position_list_query trd_ctx acc) as [[[] [prows | pmsg]] | e];
  destruct (accinfo_query trd_ctx acc) as [[[] [[ | r rs] | m]] | e'];
    try contradiction; simpl; split_cases; reflexivity.
Qed.

(** ** A failure inside one pass *)

(** C1, as amended.  The per-account loop has no handler.  When the
    pass of an enumerated account raises, the loop and
    [export_account_data_for_web] end with that exception right after
    the events of that pass: no event of a later account follows.  The
    entry point then closes the session and the run ends with an
    exception. *)
Theorem failure_in_pass_aborts_run w t0 trd_ctx t_list pre acc post
    t_pre tav t e :
  get_trade_context w = (t0, Return trd_ctx) ->
  get_accounts trd_ctx = (t_list, Return (pre ++ acc :: post)) ->
  for_acc_ids trd_ctx w true None pre = (t_pre, Return tav) ->
  loop_body trd_ctx w true tav acc = (t, Raise e) ->
  export_account_data_for_web trd_ctx w None true
  = (t_list ++ t_pre ++ t, Raise e)
  /\ fst (main w)
     = EvPrint (Text "Acquiring trade context from Moomoo OpenD...") :: t0
       ++ EvPrint (Text "Trade context acquired.")
       :: (t_list ++ t_pre ++ t) ++ fst (close_context trd_ctx)
  /\ snd (main w)
     = match close trd_ctx with
       | Return _ => Raise e
       | Raise e' => Raise e'
       end.
Proof.
  intros Hctx Hlist Hpre Hbody.
  assert (Hexport : export_account_data_for_web trd_ctx w None true
                    = (t_list ++ t_pre ++ t, Raise e)).
  { rewrite export_unfold, (bind_return _ _ _ _ Hlist).
    rewrite (for_acc_ids_raise _ _ _ _ _ _ _ _ _ _ _ Hpre Hbody).
    reflexivity. }
  split; [ exact Hexport | ].
  rewrite (main_acquired _ _ _ Hctx), Hexport. cbn [fst snd].
  split; [ reflexivity | ].
  unfold close_context, perform, print, emit.
  now destruct (close trd_ctx).
Qed.

Lemma failure_in_pass_aborts_run_witness :
  export_account_data_for_web ctx_fetch_fails world_fetch_fails None true
  = ([EvGetAccList] ++ []
       ++ [EvPrint (Text (querying_line "A1111"));
           EvPositionListQuery "A1111" true],
     Raise (SDKError "connection lost"))
  /\ fst (main world_fetch_fails)
     = EvPrint (Text "Acquiring trade context from Moomoo OpenD...")
       :: [EvConnect default_host default_port default_retry_delay;
           EvOpen trade_config]
       ++ EvPrint (Text "Trade context acquired.")
       :: ([EvGetAccList] ++ []
             ++ [EvPrint (Text (querying_line "A1111"));
                 EvPositionListQuery "A1111" true])
       ++ fst (close_context ctx_fetch_fails)
  /\ snd (main world_fetch_fails)
     = match close ctx_fetch_fails with
       | Return _ => Raise (SDKError "connection lost")
       | Raise e' => Raise e'
       end.
Proof.
  apply (failure_in_pass_aborts_run world_fetch_fails
           [EvConnect default_host default_port default_retry_delay;
            EvOpen trade_config]
           ctx_fetch_fails [EvGetAccList] [] "A1111" ["A2222"] [] None).
  - reflexivity.
  - reflexivity.
  - reflexivity.
  - reflexivity.
Defined.

(** C1, as stated, fails: two accounts are enumerated, the position
    query of the first one raises, and the run ends with that
    exception without a single query for the second account. *)
Lemma failure_in_pass_is_not_caught :
  snd (get_accounts ctx_fetch_fails) = Return ["A1111"; "A2222"]
  /\ snd (main world_fetch_fails) = Raise (SDKError "connection lost")
  /\ count (queries_account "A1111") (fst (main world_fetch_fails)) = 1%nat
  /\ count (queries_account "A2222") (fst (main world_fetch_fails)) = 0%nat.
Proof. repeat split. Qed.

(** ** A degraded position query *)

(** When the position query is answered with a non-success status and
    an empty table, the snapshot is written with no positions. *)
Lemma degraded_positions_empty_table trd_ctx w tav acc row arows :
  position_list_query trd_ctx acc = Return (RET_ERROR, DataFrame []) ->
  accinfo_query trd_ctx acc = Return (RET_OK, DataFrame (row :: arows)) ->
  (total_assets row <=? activity_threshold)%float = false ->
  open_file w (out_path w acc (now w acc)) = None ->
  (forall data, json_dump w (out_path w acc (now w acc)) data = None) ->
  In (EvWrite (out_path w acc (now w acc))
        {| timestamp := now w acc; account := row; positions := [] |})
     (fst (loop_body trd_ctx w true tav acc)).
Proof.
  intros Hp Ha Hcmp Ho Hd. unfold loop_body, perform, print, emit, pure_result.
  rewrite Hp, Ha. simpl. rewrite Hcmp. simpl. rewrite Ho, Hd. simpl.
  find_event.
Qed.

(** When it is answered with a non-success status and the error text,
    the conversion of [positions_data] raises and nothing is written. *)
Lemma degraded_positions_message trd_ctx w tav acc msg row arows :
  position_list_query trd_ctx acc = Return (RET_ERROR, Message msg) ->
  accinfo_query trd_ctx acc = Return (RET_OK, DataFrame (row :: arows)) ->
  (total_assets row <=? activity_threshold)%float = false ->
  loop_body trd_ctx w true tav acc
  = ([EvPrint (Text (querying_line acc));
      EvPositionListQuery acc true;
      EvAccInfoQuery acc USD true;
      EvPrint (TotalAssetsLine (total_assets row))],
     Raise (AttributeError "str" "to_dict")).
Proof.
  intros Hp Ha Hcmp. unfold loop_body, perform, print, emit.
  rewrite Hp, Ha. simpl. now rewrite Hcmp.
Qed.

(** C2 on the code.  The position query of [A1111] is answered
    [(RET_ERROR, "request timed out")], its summary query succeeds with
    total assets 500.00: the pass raises [AttributeError] at
    [positions_data.to_dict], the run ends with that exception, and no
    snapshot file is written. *)
Theorem degraded_positions_abort_export :
  position_list_query ctx_positions_degraded "A1111"
  = Return (RET_ERROR, Message "request timed out")
  /\ option_map total_assets
       (summary_row (accinfo_query ctx_positions_degraded "A1111"))
     = Some 500%float
  /\ loop_body ctx_positions_degraded world_positions_degraded true None
       "A1111"
     = ([EvPrint (Text (querying_line "A1111"));
         EvPositionListQuery "A1111" true;
         EvAccInfoQuery "A1111" USD true;
         EvPrint (TotalAssetsLine 500%float)],
        Raise (AttributeError "str" "to_dict"))
  /\ snd (main world_positions_degraded)
     = Raise (AttributeError "str" "to_dict")
  /\ count is_write (fst (main world_positions_degraded)) = 0%nat.
Proof. repeat split. Qed.

(** ** Releasing the session *)

Lemma count_zero_forall p (t : trace) :
  Forall (fun e => p e = false) t -> count p t = 0%nat.
Proof.
  intros H. unfold count. induction H as [ | e t He _ IH]; [ reflexivity | ].
  simpl. now rewrite He.
Qed.

Lemma close_context_once trd_ctx :
  count is_close (fst (close_context trd_ctx)) = 1%nat
  /\ exists rest, fst (close_context trd_ctx) = EvClose :: rest.
Proof.
  unfold close_context, perform, print, emit.
  destruct (close trd_ctx); simpl; split; eauto.
Qed.

(** C6.  If the trade context was acquired, whatever the export did -
    returned or raised - the run performs exactly one [close], after
    every other call on the session; if acquiring it raised, the run
    performs no [close] and ends with that exception. *)
Theorem main_closes_once w t0 :
  (forall trd_ctx,
      get_trade_context w = (t0, Return trd_ctx) ->
      count is_close (fst (main w)) = 1%nat
      /\ exists t_before,
          fst (main w) = t_before ++ fst (close_context trd_ctx)
          /\ count is_close t_before = 0%nat)
  /\
  (forall e,
      get_trade_context w = (t0, Raise e) ->
      count is_close (fst (main w)) = 0%nat
      /\ snd (main w) = Raise e).
Proof.
  assert (Hacq : forall r, get_trade_context w = (t0, r) ->
                           count is_close t0 = 0%nat).
  { intros r Hctx. apply count_zero_forall, Forall_forall. intros ev Hin.
    assert (Hin' : In ev (fst (get_trade_context w))) by now rewrite Hctx.
    apply get_trade_context_events in Hin'.
    destruct Hin' as [Hp | [-> | ->]]; [ | reflexivity | reflexivity ].
    now destruct ev. }
  split.
  - intros trd_ctx Hctx. rewrite (main_acquired _ _ _ Hctx). cbn [fst].
    pose proof (export_no_session trd_ctx w None true) as Hbody.
    assert (Hb : count is_close
                   (fst (export_account_data_for_web trd_ctx w None true))
                 = 0%nat).
    { apply count_zero_forall. eapply Forall_impl; [ | exact Hbody ].
      now intros ev [_ H]. }
    destruct (close_context_once trd_ctx) as [Hone _].
    split.
    + rewrite count_cons, count_app, count_cons, count_app.
      rewrite (Hacq _ Hctx), Hb, Hone. reflexivity.
    + exists (EvPrint (Text "Acquiring trade context from Moomoo OpenD...")
                :: t0 ++ EvPrint (Text "Trade context acquired.")
                :: fst (export_account_data_for_web trd_ctx w None true)).
      split.
      * cbn [app]. f_equal. rewrite <- app_assoc. reflexivity.
      * rewrite count_cons, count_app, count_cons.
        rewrite (Hacq _ Hctx), Hb. reflexivity.
  - intros e Hctx. rewrite (main_not_acquired _ _ _ Hctx). cbn [fst snd].
    split; [ | reflexivity ].
    rewrite count_cons, (Hacq _ Hctx). reflexivity.
Qed.

Lemma main_closes_once_witness :
  (count is_close (fst (main world_two_accounts)) = 1%nat
   /\ exists t_before,
       fst (main world_two_accounts)
       = t_before ++ fst (close_context ctx_two_accounts)
       /\ count is_close t_before = 0%nat)
  /\ (count is_close (fst (main world_fetch_fails)) = 1%nat
      /\ exists t_before,
          fst (main world_fetch_fails)
          = t_before ++ fst (close_context ctx_fetch_fails)
          /\ count is_close t_before = 0%nat)
  /\ (count is_close (fst (main world_not_listening)) = 0%nat
      /\ snd (main world_not_listening)
         = Raise (RuntimeError "Moomoo OpenD is not running.")).
Proof.
  split; [ | split ].
  - apply (proj1 (main_closes_once world_two_accounts
                    [EvConnect default_host default_port default_retry_delay;
                     EvOpen trade_config])).
    reflexivity.
  - apply (proj1 (main_closes_once world_fetch_fails
                    [EvConnect default_host default_port default_retry_delay;
                     EvOpen trade_config])).
    reflexivity.
  - apply (proj2 (main_closes_once world_not_listening
                    (failed_attempts default_host default_port
                       default_retry_delay 6
                     ++ [EvPrint (Text not_running_line)]))).
    reflexivity.
Defined.

(** * Further properties *)

(** ** The probe when somebody listens *)

Lemma probe_loop_first_accept w host port d :
  sleep w d = None ->
  forall j k n,
    (forall i, (i < j)%nat -> attempt w host port d (k + i) = SocketError) ->
    attempt w host port d (k + j) = Connected ->
    (j < n)%nat ->
    probe_loop w host port d k n
    = (failed_attempts host port d j ++ [EvConnect host port d], Return true).
Proof.
  intros Hs. induction j as [ | j IH]; intros k n Hno Hyes Hlt;
    (destruct n as [ | n]; [ lia | ]); cbn [probe_loop]; unfold perform.
  - rewrite Nat.add_0_r in Hyes. now rewrite Hyes.
  - pose proof (Hno 0%nat ltac:(lia)) as H0. rewrite Nat.add_0_r in H0.
    rewrite H0, Hs. cbn [bind outcome].
    rewrite (IH (S k) n).
    + reflexivity.
    + intros i Hi. replace (S k + i)%nat with (k + S i)%nat by lia.
      apply Hno. lia.
    + now replace (S k + j)%nat with (k + S j)%nat by lia.
    + lia.
Qed.

Lemma count_connect_accept host port d j :
  count is_connect (failed_attempts host port d j ++ [EvConnect host port d])
  = S j.
Proof.
  rewrite count_app, count_failed_attempts. unfold count. simpl. lia.
Qed.

(** X1.  Let [n] be [int(timeout / retry_delay)] for a retry interval
    that is not zero (the binary64 quotient, finite).  When the first
    attempt on which [connect] returns is the one numbered [j], with
    [j < n], the attempts before it ending in a [socket.error] and
    [time.sleep(retry_delay)] returning, the probe returns [True] right
    after that attempt: [j + 1] connection attempts, a sleep after each
    refused one and none after the accepted one. *)
Theorem moomoo_is_running_accepted w host port timeout retry_delay n j :
  (retry_delay =? 0)%float = false ->
  int_of_float (timeout / retry_delay) = Return n ->
  (Z.of_nat j < n)%Z ->
  (forall i, (i < j)%nat -> attempt w host port retry_delay i = SocketError) ->
  attempt w host port retry_delay j = Connected ->
  sleep w retry_delay = None ->
  moomoo_is_running w host port timeout retry_delay
  = (failed_attempts host port retry_delay j
       ++ [EvConnect host port retry_delay],
     Return true)
  /\ count is_connect (fst (moomoo_is_running w host port timeout retry_delay))
     = S j.
Proof.
  intros Hd Hn Hj Hno Hyes Hs.
  assert (Hrun : moomoo_is_running w host port timeout retry_delay
                 = (failed_attempts host port retry_delay j
                      ++ [EvConnect host port retry_delay],
                    Return true)).
  { rewrite (moomoo_is_running_loop _ _ _ _ _ _ Hd Hn).
    apply probe_loop_first_accept; auto. lia. }
  split; [ exact Hrun | ].
  rewrite Hrun. apply count_connect_accept.
Qed.

Lemma moomoo_is_running_accepted_witness :
  moomoo_is_running (world_listening_from 2) default_host default_port
    default_timeout default_retry_delay
  = (failed_attempts default_host default_port default_retry_delay 2
       ++ [EvConnect default_host default_port default_retry_delay],
     Return true)
  /\ count is_connect
       (fst (moomoo_is_running (world_listening_from 2) default_host
               default_port default_timeout default_retry_delay))
     = 3%nat.
Proof.
  apply (moomoo_is_running_accepted (world_listening_from 2) default_host
           default_port default_timeout default_retry_delay 6 2).
  - reflexivity.
  - reflexivity.
  - reflexivity.
  - intros [ | [ | i]] Hi; [ reflexivity | reflexivity | lia ].
  - reflexivity.
  - reflexivity.
Defined.

(** with the binary64 quotient of [0.3 / 0.1] the third attempt is
    never made, even for an endpoint that would accept it *)
Example moomoo_is_running_third_attempt_not_made :
  moomoo_is_running (world_listening_from 2) default_host default_port
    0x1.3333333333333p-2%float 0x1.999999999999ap-4%float
  = (failed_attempts default_host default_port 0x1.999999999999ap-4%float 2,
     Return false).
Proof. reflexivity. Qed.

Lemma probe_loop_outcome w host port d :
  sleep w d = None ->
  forall n k,
    (forall j e, (j < n)%nat -> attempt w host port d (k + j) <> OtherError e) ->
  exists t b,
    probe_loop w host port d k n = (t, Return b)
    /\ (count is_connect t <= n)%nat
    /\ (b = true <->
        exists j, (j < n)%nat /\ attempt w host port d (k + j) = Connected).
Proof.
  intros Hs. induction n as [ | n IH]; intros k Hok.
  - exists [], false. split; [ reflexivity | split; [ cbn; lia | ] ].
    split; [ discriminate | ]. intros [j [Hj _]]. lia.
  - cbn [probe_loop]. unfold perform.
    pose proof (Hok 0%nat) as H0. rewrite Nat.add_0_r in H0.
    destruct (attempt w host port d k) eqn:Hk.
    + exists [EvConnect host port d], true.
      split; [ reflexivity | split; [ unfold count; simpl; lia | ] ].
      split; [ | reflexivity ].
      intros _. exists 0%nat. rewrite Nat.add_0_r. split; [ lia | exact Hk ].
    + destruct (IH (S k)) as (t & b & Hrun & Hcount & Hb).
      { intros j e Hj. replace (S k + j)%nat with (k + S j)%nat by lia.
        apply Hok. lia. }
      rewrite Hs. cbn [bind outcome]. rewrite Hrun.
      exists (EvConnect host port d :: EvSleep d :: t), b.
      split; [ reflexivity | split; [ | split ] ].
      * rewrite !count_cons. simpl. lia.
      * intros Htrue. apply Hb in Htrue. destruct Htrue as [j [Hj Hacc]].
        exists (S j). split; [ lia | ].
        now replace (k + S j)%nat with (S k + j)%nat by lia.
      * intros [[ | j] [Hj Hacc]].
        -- rewrite Nat.add_0_r in Hacc. congruence.
        -- apply Hb. exists j. split; [ lia | ].
           now replace (S k + j)%nat with (k + S j)%nat by lia.
    + now elim (H0 e ltac:(lia)).
Qed.

(** X2.  Let [n] be [int(timeout / retry_delay)] for a retry interval
    that is not zero (the binary64 quotient, finite).  When no attempt
    raises anything but a [socket.error] and [time.sleep(retry_delay)]
    returns, the probe returns a boolean, makes at most [max 0 n]
    connection attempts, and answers [True] exactly when [connect]
    returns on one of the attempts numbered below [n]. *)
Theorem moomoo_is_running_outcome w host port timeout retry_delay n :
  (retry_delay =? 0)%float = false ->
  int_of_float (timeout / retry_delay) = Return n ->
  (forall j e, attempt w host port retry_delay j <> OtherError e) ->
  sleep w retry_delay = None ->
  exists t b,
    moomoo_is_running w host port timeout retry_delay = (t, Return b)
    /\ (Z.of_nat (count is_connect t) <= Z.max 0 n)%Z
    /\ (b = true <->
        exists j, (Z.of_nat j < n)%Z
                  /\ attempt w host port retry_delay j = Connected).
Proof.
  intros Hd Hn Hok Hs.
  destruct (probe_loop_outcome w host port retry_delay Hs (Z.to_nat n) 0%nat)
    as (t & b & Hrun & Hcount & Hb).
  { intros j e _. apply Hok. }
  exists t, b. split; [ | split ].
  - now rewrite (moomoo_is_running_loop _ _ _ _ _ _ Hd Hn).
  - lia.
  - rewrite Hb. split; intros [j [Hj Hacc]]; exists j; (split; [ lia | ]);
      exact Hacc.
Qed.

Lemma moomoo_is_running_outcome_witness :
  exists t b,
    moomoo_is_running (world_listening_from 2) default_host default_port
      default_timeout default_retry_delay = (t, Return b)
    /\ (Z.of_nat (count is_connect t) <= 6)%Z
    /\ (b = true <->
        exists j, (Z.of_nat j < 6)%Z
                  /\ attempt (world_listening_from 2) default_host
                       default_port default_retry_delay j = Connected).
Proof.
  apply (moomoo_is_running_outcome (world_listening_from 2) default_host
           default_port default_timeout default_retry_delay 6).
  - reflexivity.
  - reflexivity.
  - intros [ | [ | j]] e; vm_compute; discriminate.
  - reflexivity.
Defined.

(** ** The file name *)

Lemma substring_whole (s : string) :
  forall m, (String.length s <= m)%nat -> substring 0 m s = s.
Proof.
  induction s as [ | c s IH]; intros m Hm.
  - now destruct m.
  - destruct m as [ | m]; cbn in Hm; [ lia | ].
    cbn. f_equal. apply IH. lia.
Qed.

Lemma length_app_string (a b : string) :
  String.length (a ++ b) = (String.length a + String.length b)%nat.
Proof. induction a as [ | c a IH]; cbn; [ reflexivity | now rewrite IH ]. Qed.

Lemma substring_tail (s : string) :
  forall n, (n <= String.length s)%nat ->
  exists pre,
    String.length pre = n
    /\ s = (pre ++ substring n (String.length s - n) s)%string.
Proof.
  induction s as [ | c s IH]; intros n Hn.
  - cbn in Hn. assert (n = 0%nat) by lia. subst n. now exists "".
  - destruct n as [ | n].
    + exists "". split; [ reflexivity | ].
      rewrite Nat.sub_0_r, substring_whole by lia. reflexivity.
    + cbn in Hn. destruct (IH n ltac:(lia)) as [pre [Hlen Heq]].
      exists (String c pre). split; [ cbn; now rewrite Hlen | ].
      cbn [String.length Nat.sub substring append]. now rewrite <- Heq.
Qed.

(** X5.  [str(acc_id)[-4:]], the part of the id that names the file:
    it is an end of the id, of length [min 4 (len id)], hence the whole
    id when the id has at most four characters. *)
Theorem last4_suffix (s : string) :
  (exists pre, s = (pre ++ last4 s)%string)
  /\ String.length (last4 s) = Nat.min 4 (String.length s)
  /\ ((String.length s <= 4)%nat -> last4 s = s).
Proof.
  unfold last4.
  assert (Hsmall : (String.length s <= 4)%nat ->
                   substring (String.length s - 4) 4 s = s).
  { intros H. replace (String.length s - 4)%nat with 0%nat by lia.
    now apply substring_whole. }
  destruct (Nat.le_gt_cases (String.length s) 4) as [Hle | Hgt].
  - rewrite (Hsmall Hle). split; [ now exists "" | split; [ lia | auto ] ].
  - destruct (substring_tail s (String.length s - 4) ltac:(lia))
      as [pre [Hlen Heq]].
    replace (String.length s - (String.length s - 4))%nat with 4%nat
      in Heq by lia.
    split; [ now exists pre | split; [ | lia ] ].
    apply (f_equal String.length) in Heq.
    rewrite length_app_string in Heq. lia.
Qed.

Example last4_examples :
  last4 "281756460277401516" = "1516" /\ last4 "A2222" = "2222"
  /\ last4 "77" = "77" /\ last4 "" = "".
Proof. repeat split. Qed.

Lemma last4_suffix_witness :
  (exists pre, "77" = (pre ++ last4 "77")%string)
  /\ String.length (last4 "77") = Nat.min 4 (String.length "77")
  /\ last4 "77" = "77".
Proof.
  destruct (last4_suffix "77") as [Hpre [Hlen Hsmall]].
  split; [ exact Hpre | split; [ exact Hlen | ] ].
  apply Hsmall. cbn. lia.
Defined.

(** ** The pass of an active account *)

(** X6.  The pass of an account whose position query returned a table
    and whose summary query succeeded with total assets on which the
    test [<= 0.1] fails, in full: both queries and the two progress
    lines; then, when exporting, [open] of the file named after the
    account under [THIS_DIR], the dump of the timestamp, the first
    summary row and every position row, and the success line.  If
    [open] raises the pass raises that error and the file is untouched;
    if the dump raises the pass raises that error after the file was
    created or truncated, without a success line.  Without
    [export_to_file] no file is opened.  The local
    [total_assets_value] ends as the fresh value. *)
Theorem active_pass trd_ctx w export_to_file tav acc rp prows row arows :
  position_list_query trd_ctx acc = Return (rp, DataFrame prows) ->
  accinfo_query trd_ctx acc = Return (RET_OK, DataFrame (row :: arows)) ->
  (total_assets row <=? activity_threshold)%float = false ->
  let path := out_path w acc (now w acc) in
  let data := {| timestamp := now w acc;
                 account := row;
                 positions := prows |} in
  let fetched :=
    [EvPrint (Text (querying_line acc)); EvPositionListQuery acc true]
      ++ positions_found_events rp prows
      ++ [EvAccInfoQuery acc USD true;
          EvPrint (TotalAssetsLine (total_assets row))] in
  loop_body trd_ctx w export_to_file tav acc
  = if export_to_file then
      match open_file w path with
      | Some e => (fetched, Raise e)
      | None =>
          match json_dump w path data with
          | Some e => (fetched ++ [EvOpenFile path], Raise e)
          | None =>
              (fetched ++ [EvOpenFile path; EvWrite path data;
                           EvPrint (ExportedLine path)],
               Return (Some (total_assets row)))
          end
      end
    else (fetched, Return (Some (total_assets row))).
Proof.
  intros Hp Ha Hcmp path data fetched. subst path data fetched.
  unfold loop_body, perform, print, emit, pure_result. rewrite Hp, Ha.
  destruct rp, prows as [ | prow prows]; simpl; rewrite Hcmp; simpl;
    destruct export_to_file; simpl; try reflexivity;
    destruct (open_file w (out_path w acc (now w acc))); simpl;
    try reflexivity;
    match goal with
    | |- context [json_dump ?w ?p ?d] => destruct (json_dump w p d)
    end; reflexivity.
Qed.

Lemma active_pass_witness :
  loop_body ctx_with_positions world_with_positions true None "A1111"
  = ([EvPrint (Text "Querying account: 'A1111'");
      EvPositionListQuery "A1111" true;
      EvPrint (Text "  [green bold]➜ Success[/green bold] 2 positions found.");
      EvAccInfoQuery "A1111" USD true;
      EvPrint (TotalAssetsLine 500%float);
      EvOpenFile file_1111;
      EvWrite file_1111
        {| timestamp := "20240131_093000";
           account := mk_acc_info 500%float [("currency", "USD")];
           positions := [[("code", "US.AAPL"); ("qty", "10")];
                         [("code", "US.MSFT"); ("qty", "5")]] |};
      EvPrint (ExportedLine file_1111)],
     Return (Some 500%float)).
Proof.
  apply (active_pass ctx_with_positions world_with_positions true None
           "A1111" RET_OK
           [[("code", "US.AAPL"); ("qty", "10")];
            [("code", "US.MSFT"); ("qty", "5")]]
           (mk_acc_info 500%float [("currency", "USD")]) []).
  - reflexivity.
  - reflexivity.
  - reflexivity.
Defined.

(** when the dump fails the file has been opened, hence truncated *)
Example dump_failure_leaves_opened_file :
  loop_body ctx_two_accounts world_disk_full true None "A1111"
  = ([EvPrint (Text "Querying account: 'A1111'");
      EvPositionListQuery "A1111" true;
      EvAccInfoQuery "A1111" USD true;
      EvPrint (TotalAssetsLine 500%float);
      EvOpenFile file_1111],
     Raise (OSError "No space left on device")).
Proof. reflexivity. Qed.

(** ** What a snapshot file holds *)

Lemma loop_body_write_contents trd_ctx w export_to_file tav acc path data :
  In (EvWrite path data) (fst (loop_body trd_ctx w export_to_file tav acc)) ->
  exists rp ra arows,
    position_list_query trd_ctx acc = Return (rp, DataFrame (positions data))
    /\ accinfo_query trd_ctx acc
       = Return (ra, DataFrame (account data :: arows))
    /\ timestamp data = now w acc
    /\ path = out_path w acc (timestamp data)
    /\ open_file w path = None
    /\ export_to_file = true.
Proof.
  unfold loop_body, perform, print, emit, pure_result.
  destruct (position_list_query trd_ctx acc) as [[[] [prows | pmsg]] | e];
  destruct (accinfo_query trd_ctx acc) as [[[] [[ | row arows] | amsg]] | e'];
  destruct tav as [v0 | ]; simpl; split_cases; intros H; in_trace H.
  all: injection H as <- <-; simpl; eexists _, _, _; repeat split; eauto.
  all: congruence.
Qed.

Lemma get_accounts_ids trd_ctx ids a :
  snd (get_accounts trd_ctx) = Return ids ->
  In a ids ->
  exists rows r,
    get_acc_list trd_ctx = Return (RET_OK, DataFrame rows)
    /\ In r rows /\ trd_env r = "REAL" /\ acc_id r = a.
Proof.
  unfold get_accounts, perform, emit.
  destruct (get_acc_list trd_ctx) as [[[] [rows | msg]] | e]; simpl;
    intros Hids Hin; try discriminate Hids; injection Hids as <-;
    try contradiction.
  unfold real_acc_ids in Hin. apply in_map_iff in Hin.
  destruct Hin as [r [Hr Hin]]. apply filter_In in Hin.
  destruct Hin as [Hin Hreal]. apply String.eqb_eq in Hreal.
  exists rows, r. now repeat split.
Qed.

(** X7.  Every snapshot file written during a run belongs to one
    account tagged ["REAL"] in the listing and holds that account's own
    answers of this run: all rows of its position table, the first row
    of its summary table, and the timestamp that also appears in the
    file name. *)
Theorem snapshot_contents w path data :
  In (EvWrite path data) (fst (main w)) ->
  exists t0 trd_ctx rows r rp ra arows,
    get_trade_context w = (t0, Return trd_ctx)
    /\ get_acc_list trd_ctx = Return (RET_OK, DataFrame rows)
    /\ In r rows /\ trd_env r = "REAL"
    /\ position_list_query trd_ctx (acc_id r)
       = Return (rp, DataFrame (positions data))
    /\ accinfo_query trd_ctx (acc_id r)
       = Return (ra, DataFrame (account data :: arows))
    /\ timestamp data = now w (acc_id r)
    /\ path = out_path w (acc_id r) (timestamp data).
Proof.
  intros H. apply main_write in H.
  destruct H as (t0 & trd_ctx & ids & Hctx & Hids & H).
  apply for_acc_ids_event in H.
  destruct H as (pre & acc & post & t_pre & tav & -> & _ & H).
  apply loop_body_write_contents in H.
  destruct H as (rp & ra & arows & Hp & Ha & Hts & Hpath & _ & _).
  destruct (get_accounts_ids trd_ctx _ acc Hids)
    as (rows & r & Hlist & Hin & Hreal & <-).
  { apply in_or_app. right. now left. }
  exists t0, trd_ctx, rows, r, rp, ra, arows. now repeat split.
Qed.

Lemma snapshot_contents_witness :
  exists t0 trd_ctx rows r rp ra arows,
    get_trade_context world_with_positions = (t0, Return trd_ctx)
    /\ get_acc_list trd_ctx = Return (RET_OK, DataFrame rows)
    /\ In r rows /\ trd_env r = "REAL"
    /\ position_list_query trd_ctx (acc_id r)
       = Return (rp, DataFrame [[("code", "US.AAPL"); ("qty", "10")];
                                [("code", "US.MSFT"); ("qty", "5")]])
    /\ accinfo_query trd_ctx (acc_id r)
       = Return (ra, DataFrame (mk_acc_info 500%float [("currency", "USD")]
                                  :: arows))
    /\ "20240131_093000" = now world_with_positions (acc_id r)
    /\ file_1111 = out_path world_with_positions (acc_id r) "20240131_093000".
Proof.
  apply (snapshot_contents world_with_positions file_1111
           {| timestamp := "20240131_093000";
              account := mk_acc_info 500%float [("currency", "USD")];
              positions := [[("code", "US.AAPL"); ("qty", "10")];
                            [("code", "US.MSFT"); ("qty", "5")]] |}).
  vm_compute. find_event.
Defined.

(** ** A run in which every account answers *)

Lemma written_paths_app (t1 t2 : trace) :
  written_paths (t1 ++ t2) = written_paths t1 ++ written_paths t2.
Proof. unfold written_paths. apply flat_map_app. Qed.

Lemma written_paths_none (t : trace) :
  Forall (fun e => is_write e = false) t -> written_paths t = [].
Proof.
  intros H. induction H as [ | e t He _ IH]; [ reflexivity | ].
  destruct e; try discriminate He; exact IH.
Qed.



Lemma get_trade_context_no_write w :
  Forall (fun e => is_write e = false) (fst (get_trade_context w)).
Proof.
  apply Forall_forall. intros ev Hin.
  apply get_trade_context_events in Hin.
  destruct Hin as [Hp | [-> | ->]]; [ | reflexivity | reflexivity ].
  now destruct ev.
Qed.

Lemma get_accounts_no_write trd_ctx :
  Forall (fun e => is_write e = false) (fst (get_accounts trd_ctx)).
Proof.
  apply Forall_forall. intros ev Hin.
  apply get_accounts_events in Hin. now destruct Hin as [-> | [d ->]].
Qed.

Lemma close_context_no_write trd_ctx :
  written_paths (fst (close_context trd_ctx)) = [].
Proof.
  unfold close_context, perform, print, emit. now destruct (close trd_ctx).
Qed.



(** ** Exporting without files *)

Lemma loop_body_no_file trd_ctx w tav acc :
  Forall (fun e => is_write e = false /\ is_open_file e = false)
         (fst (loop_body trd_ctx w false tav acc)).
Proof.
  unfold loop_body, perform, print, emit.
  destruct (position_list_query trd_ctx acc) as [[[] [prows | pmsg]] | e];
  destruct (accinfo_query trd_ctx acc) as [[[] [[ | row arows] | amsg]] | e'];
  destruct tav as [v0 | ]; simpl; split_cases;
  repeat (constructor; [ split; reflexivity | ]); constructor.
Qed.

(** X9.  With [export_to_file=False] the function opens and writes no
    file, whatever the session answers and whichever [acc_id] is
    passed. *)
Theorem export_without_file_writes_nothing trd_ctx w acc_id :
  written_paths
    (fst (export_account_data_for_web trd_ctx w acc_id false)) = []
  /\ count is_write
       (fst (export_account_data_for_web trd_ctx w acc_id false)) = 0%nat
  /\ count is_open_file
       (fst (export_account_data_for_web trd_ctx w acc_id false)) = 0%nat.
Proof.
  assert (H : Forall (fun e => is_write e = false /\ is_open_file e = false)
                (fst (export_account_data_for_web trd_ctx w acc_id false))).
  { destruct acc_id as [a | ]; [ constructor | ].
    apply Forall_forall. intros ev Hin.
    apply export_events in Hin. destruct Hin as [Hin | (ids & _ & Hin)].
    - apply get_accounts_events in Hin.
      destruct Hin as [-> | [d ->]]; now split.
    - apply for_acc_ids_event in Hin.
      destruct Hin as (pre & acc & post & t_pre & tav & _ & _ & Hin).
      pose proof (loop_body_no_file trd_ctx w tav acc) as Hb.
      rewrite Forall_forall in Hb. now apply Hb. }
  split; [ | split ].
  - apply written_paths_none. eapply Forall_impl; [ | exact H ].
    now intros ev [Hw _].
  - apply count_zero_forall. eapply Forall_impl; [ | exact H ].
    now intros ev [Hw _].
  - apply count_zero_forall. eapply Forall_impl; [ | exact H ].
    now intros ev [_ Ho].
Qed.

(** ** An empty enumeration *)

(** X10.  When the session is acquired and [get_accounts] returns the
    empty list - the listing had a non-success status, or no record
    tagged ["REAL"] - the run only lists, closes the session and ends
    with the outcome of [close]: no account is queried and no file
    written. *)
Theorem empty_enumeration_run w t0 trd_ctx t_list :
  get_trade_context w = (t0, Return trd_ctx) ->
  get_accounts trd_ctx = (t_list, Return []) ->
  fst (main w)
  = EvPrint (Text "Acquiring trade context from Moomoo OpenD...") :: t0
    ++ EvPrint (Text "Trade context acquired.") :: t_list
    ++ fst (close_context trd_ctx)
  /\ snd (main w)
     = match close trd_ctx with
       | Return _ => Return tt
       | Raise e => Raise e
       end
  /\ written_paths (fst (main w)) = [].
Proof.
  intros Hctx Hlist.
  assert (Hexport : export_account_data_for_web trd_ctx w None true
                    = (t_list, Return tt)).
  { rewrite export_unfold, (bind_return _ _ _ _ Hlist). cbn.
    now rewrite app_nil_r. }
  assert (Htrace : fst (main w)
    = EvPrint (Text "Acquiring trade context from Moomoo OpenD...") :: t0
      ++ EvPrint (Text "Trade context acquired.") :: t_list
      ++ fst (close_context trd_ctx)).
  { rewrite (main_acquired _ _ _ Hctx), Hexport. reflexivity. }
  split; [ exact Htrace | split ].
  - rewrite (main_acquired _ _ _ Hctx), Hexport. cbn [fst snd].
    unfold close_context, perform, print, emit.
    now destruct (close trd_ctx) as [[] | e].
  - rewrite Htrace.
    pose proof (get_trade_context_no_write w) as H0. rewrite Hctx in H0.
    pose proof (get_accounts_no_write trd_ctx) as H1. rewrite Hlist in H1.
    cbn [fst] in H0, H1.
    change (written_paths (?e :: ?l)) with (written_paths ([e] ++ l)).
    rewrite !written_paths_app.
    change (EvPrint (Text "Trade context acquired.") :: ?l)
      with ([EvPrint (Text "Trade context acquired.")] ++ l).
    rewrite !written_paths_app.
    rewrite (written_paths_none _ H0), (written_paths_none _ H1).
    now rewrite close_context_no_write.
Qed.

Lemma empty_enumeration_run_witness :
  fst (main world_listing_degraded)
  = EvPrint (Text "Acquiring trade context from Moomoo OpenD...")
    :: [EvConnect default_host default_port default_retry_delay;
        EvOpen trade_config]
    ++ EvPrint (Text "Trade context acquired.")
    :: [EvGetAccList; EvPrint (AccListErrorLine (Message "not logged in"))]
    ++ fst (close_context ctx_listing_degraded)
  /\ snd (main world_listing_degraded)
     = match close ctx_listing_degraded with
       | Return _ => Return tt
       | Raise e => Raise e
       end
  /\ written_paths (fst (main world_listing_degraded)) = [].
Proof.
  apply (empty_enumeration_run world_listing_degraded
           [EvConnect default_host default_port default_retry_delay;
            EvOpen trade_config]
           ctx_listing_degraded
           [EvGetAccList;
            EvPrint (AccListErrorLine (Message "not logged in"))]).
  - reflexivity.
  - reflexivity.
Defined.

(** ** A degraded summary on the first account *)

Lemma unbound_total_assets_pass trd_ctx w export_to_file acc :
  answered (position_list_query trd_ctx acc) ->
  summary_degraded (accinfo_query trd_ctx acc) ->
  exists t,
    loop_body trd_ctx w export_to_file None acc
    = (t, Raise (UnboundLocalError "total_assets_value"))
    /\ written_paths t = [].
Proof.
  unfold loop_body, summary_degraded, answered, perform, print, emit.
  destruct (position_list_query trd_ctx acc) as [[[] [prows | pmsg]] | e];
  destruct (accinfo_query trd_ctx acc) as [[[] [[ | r rs] | m]] | e'];
    try contradiction; simpl; split_cases; intros _ _;
    eexists; split; reflexivity.
Qed.

(** X11.  If the summary query of the first enumerated account comes
    back with a non-success status or an empty table (its position
    query having answered), [total_assets_value] has never been
    assigned when it is compared: the export ends with
    [UnboundLocalError], a [NameError], no later account is processed
    and no file is written. *)
Theorem first_summary_degraded_raises trd_ctx w export_to_file
    t_list acc rest :
  get_accounts trd_ctx = (t_list, Return (acc :: rest)) ->
  answered (position_list_query trd_ctx acc) ->
  summary_degraded (accinfo_query trd_ctx acc) ->
  exists t,
    export_account_data_for_web trd_ctx w None export_to_file
    = (t_list ++ t, Raise (UnboundLocalError "total_assets_value"))
    /\ loop_body trd_ctx w export_to_file None acc
       = (t, Raise (UnboundLocalError "total_assets_value"))
    /\ is_NameError (UnboundLocalError "total_assets_value") = true
    /\ written_paths (t_list ++ t) = [].
Proof.
  intros Hlist Hp Ha.
  destruct (unbound_total_assets_pass trd_ctx w export_to_file acc Hp Ha)
    as [t [Hbody Hwr]].
  exists t. split; [ | split; [ exact Hbody | split; [ reflexivity | ] ] ].
  - rewrite export_unfold, (bind_return _ _ _ _ Hlist).
    cbn [for_acc_ids]. rewrite (bind_raises _ _ _ _ Hbody).
    reflexivity.
  - pose proof (get_accounts_no_write trd_ctx) as H1. rewrite Hlist in H1.
    cbn [fst] in H1.
    rewrite written_paths_app, (written_paths_none _ H1), Hwr. reflexivity.
Qed.

Lemma first_summary_degraded_raises_witness :
  exists t,
    export_account_data_for_web ctx_first_summary_degraded
      world_two_accounts None true
    = ([EvGetAccList] ++ t, Raise (UnboundLocalError "total_assets_value"))
    /\ loop_body ctx_first_summary_degraded world_two_accounts true None
         "A1111"
       = (t, Raise (UnboundLocalError "total_assets_value"))
    /\ is_NameError (UnboundLocalError "total_assets_value") = true
    /\ written_paths ([EvGetAccList] ++ t) = [].
Proof.
  apply (first_summary_degraded_raises ctx_first_summary_degraded
           world_two_accounts true [EvGetAccList] "A1111" ["A2222"]).
  - reflexivity.
  - exact I.
  - exact I.
Defined.

(** ** A left-over value that is not skipped *)

(** X12.  When the summary answer of an account carries no row (an
    error text, or an empty table) while the test [<= 0.1] fails on the
    left-over [total_assets_value] (a value above 0.1, or a NaN), the
    account is not skipped: the pass goes on to the conversions, which
    raise on the missing table or row, and no file is written under
    the stale value. *)
Theorem stale_active_rowless_raises trd_ctx w export_to_file acc v :
  answered (position_list_query trd_ctx acc) ->
  answered (accinfo_query trd_ctx acc) ->
  summary_rowless (accinfo_query trd_ctx acc) ->
  (v <=? activity_threshold)%float = false ->
  exists t e,
    loop_body trd_ctx w export_to_file (Some v) acc = (t, Raise e)
    /\ (e = AttributeError "str" "to_dict"
        \/ e = IndexError "list index out of range")
    /\ written_paths t = []
    /\ ~ In (EvPrint (Text (skip_line acc))) t.
Proof.
  unfold loop_body, summary_rowless, answered, perform, print, emit.
  unfold querying_line, skip_line, positions_found_line.
  intros Hp Ha Hr Hlt.
  destruct (position_list_query trd_ctx acc) as [[[] [prows | pmsg]] | e];
  destruct (accinfo_query trd_ctx acc) as [[[] [[ | r rs] | m]] | e'];
    try contradiction; simpl;
    rewrite Hlt; simpl; split_cases;
    eexists _, _; (split; [ reflexivity | ]);
    (split; [ auto | split; [ reflexivity | ] ]);
    intros H; in_trace H.
Qed.

Lemma stale_active_rowless_raises_witness :
  exists t e,
    loop_body ctx_summary_degraded world_summary_degraded true (Some 500%float)
      "A2222" = (t, Raise e)
    /\ (e = AttributeError "str" "to_dict"
        \/ e = IndexError "list index out of range")
    /\ written_paths t = []
    /\ ~ In (EvPrint (Text (skip_line "A2222"))) t.
Proof.
  apply (stale_active_rowless_raises ctx_summary_degraded
           world_summary_degraded true "A2222" 500%float).
  - exact I.
  - exact I.
  - exact I.
  - reflexivity.
Defined.

(** ** Which accounts are queried *)

Lemma loop_body_query_shape trd_ctx w export_to_file tav acc a ev :
  In ev (fst (loop_body trd_ctx w export_to_file tav acc)) ->
  queries_account a ev = true ->
  a = acc
  /\ (ev = EvPositionListQuery a true \/ ev = EvAccInfoQuery a USD true).
Proof.
  unfold loop_body, perform, print, emit.
  destruct (position_list_query trd_ctx acc) as [[[] [prows | pmsg]] | e];
  destruct (accinfo_query trd_ctx acc) as [[[] [[ | row arows] | amsg]] | e'];
  destruct tav as [v0 | ]; simpl; split_cases; intros H Hq;
    repeat (destruct H as [H | H];
            [ subst ev; try discriminate Hq;
              apply String.eqb_eq in Hq; subst a; auto | ]);
    contradiction.
Qed.

Lemma main_query_event w a ev :
  In ev (fst (main w)) ->
  queries_account a ev = true ->
  exists t0 trd_ctx ids,
    get_trade_context w = (t0, Return trd_ctx)
    /\ snd (get_accounts trd_ctx) = Return ids
    /\ In ev (fst (for_acc_ids trd_ctx w true None ids)).
Proof.
  intros H Hq.
  assert (Hacq : In ev (fst (get_trade_context w)) -> False).
  { intros Hin. apply get_trade_context_events in Hin.
    destruct Hin as [Hp | [-> | ->]]; [ | discriminate Hq | discriminate Hq ].
    destruct ev; discriminate. }
  destruct (get_trade_context w) as [t0 [trd_ctx | e]] eqn:Hctx.
  - rewrite (main_acquired _ _ _ Hctx) in H. cbn [fst] in H.
    exists t0, trd_ctx.
    destruct H as [H | H]; [ subst ev; discriminate Hq | ].
    apply in_app_or in H. destruct H as [H | H]; [ now elim Hacq | ].
    destruct H as [H | H]; [ subst ev; discriminate Hq | ].
    apply in_app_or in H. destruct H as [H | H].
    + apply export_events in H. destruct H as [H | (ids & Hids & H)].
      * apply get_accounts_events in H.
        destruct H as [-> | [d ->]]; discriminate Hq.
      * exists ids. now repeat split.
    + unfold close_context, perform, print, emit in H.
      destruct (close trd_ctx); in_trace H; subst ev; discriminate Hq.
  - rewrite (main_not_acquired _ _ _ Hctx) in H. cbn [fst] in H.
    destruct H as [H | H]; [ subst ev; discriminate Hq | now elim Hacq ].
Qed.

(** X13.  Every position or summary query of a run is made for an
    account that the listing of this run tags ["REAL"], with the cache
    refresh forced, and the summary in USD: a simulated account is
    never queried. *)
Theorem only_real_accounts_queried w a ev :
  In ev (fst (main w)) ->
  queries_account a ev = true ->
  (ev = EvPositionListQuery a true \/ ev = EvAccInfoQuery a USD true)
  /\ exists t0 trd_ctx rows r,
      get_trade_context w = (t0, Return trd_ctx)
      /\ get_acc_list trd_ctx = Return (RET_OK, DataFrame rows)
      /\ In r rows /\ trd_env r = "REAL" /\ acc_id r = a.
Proof.
  intros H Hq.
  destruct (main_query_event w a ev H Hq)
    as (t0 & trd_ctx & ids & Hctx & Hids & Hin).
  apply for_acc_ids_event in Hin.
  destruct Hin as (pre & acc & post & t_pre & tav & -> & _ & Hin).
  destruct (loop_body_query_shape _ _ _ _ _ _ _ Hin Hq) as [-> Hshape].
  split; [ exact Hshape | ].
  destruct (get_accounts_ids trd_ctx _ acc Hids)
    as (rows & r & Hlist & Hr & Hreal & Hid).
  { apply in_or_app. right. now left. }
  exists t0, trd_ctx, rows, r. now repeat split.
Qed.

Lemma only_real_accounts_queried_witness :
  (EvAccInfoQuery "A2222" USD true = EvPositionListQuery "A2222" true
   \/ EvAccInfoQuery "A2222" USD true = EvAccInfoQuery "A2222" USD true)
  /\ exists t0 trd_ctx rows r,
      get_trade_context world_two_accounts = (t0, Return trd_ctx)
      /\ get_acc_list trd_ctx = Return (RET_OK, DataFrame rows)
      /\ In r rows /\ trd_env r = "REAL" /\ acc_id r = "A2222".
Proof.
  apply (only_real_accounts_queried world_two_accounts "A2222"
           (EvAccInfoQuery "A2222" USD true)).
  - vm_compute. find_event.
  - reflexivity.
Defined.

(** the simulated account of the listing is left alone *)
Example simulated_account_not_queried :
  count (queries_account "S3333") (fst (main world_two_accounts)) = 0%nat.
Proof. reflexivity. Qed.
